(** * Nimiq backend adapter of blockbook: a shallow embedding

    The development follows the two Go files of package [nim]:
    the translator ([nimparser.go]: wire structs and the two mapping
    functions) and the connector (the [NimiqRPC] type with its methods).

    Go values are modelled as the code has them: fixed-width integers are
    [Z] with the wrap-around of each conversion written out, strings are
    [string], byte slices are [list byte], a pointer that may be nil is an
    [option], and a Go function returning [(T, error)] returns a pair
    [T * option error].  The connector talks to the outside world (the
    JSON-RPC client, the logger); those effects are threaded through a
    state monad over a [World] that records every effect in a trace. *)

From Stdlib Require Import ZArith NArith List String Ascii Bool Lia.
From Stdlib.Strings Require Import Byte.
From Stdlib Require Import DecimalString.
Import ListNotations.

Open Scope Z_scope.
Open Scope string_scope.

(** ** Go integer conversions *)

(** [uint32(x)]: keep the low 32 bits. *)
Definition to_uint32 (x : Z) : Z := x mod 2 ^ 32.

(** [int64(x)]: keep the low 64 bits, read as two's complement. *)
Definition to_int64 (x : Z) : Z := (x + 2 ^ 63) mod 2 ^ 64 - 2 ^ 63.

(** [int(x)]: Go's [int] is 64 bits wide on the 64-bit targets blockbook
    is built for. *)
Definition to_int (x : Z) : Z := to_int64 x.

(** Range predicates of the integer types that occur in the wire structs. *)
Definition is_uint32 (x : Z) : Prop := 0 <= x < 2 ^ 32.
Definition is_uint64 (x : Z) : Prop := 0 <= x < 2 ^ 64.
Definition is_int64 (x : Z) : Prop := - 2 ^ 63 <= x < 2 ^ 63.

(** [time.Second], in nanoseconds. *)
Definition time_Second : Z := 1000000000.

(** ** Strings *)

(** [strings.Contains(s, substr)]. *)
Fixpoint Contains (s substr : string) : bool :=
  if String.prefix substr s then true
  else match s with
       | EmptyString => false
       | String _ s' => Contains s' substr
       end.

(** The verb [%v] of [fmt] applied to an unsigned integer: its decimal
    digits. *)
Definition fmt_uint (n : Z) : string :=
  NilZero.string_of_uint (N.to_uint (Z.to_N n)).

(** ** encoding/hex *)

Definition hextable : string := "0123456789abcdef".

Definition hexdigit (n : N) : ascii :=
  match String.get (N.to_nat n) hextable with
  | Some c => c
  | None => "0"%char
  end.

(** [hex.EncodeToString]: two lower-case digits per byte, high nibble
    first. *)
Fixpoint EncodeToString (src : list byte) : string :=
  match src with
  | [] => EmptyString
  | v :: rest =>
      String (hexdigit (N.shiftr (Byte.to_N v) 4))
        (String (hexdigit (N.land (Byte.to_N v) 15))
           (EncodeToString rest))
  end.

(** Value of a lower-case hexadecimal digit; used only to show that
    [EncodeToString] is injective. *)
Definition hexvalue (c : ascii) : N :=
  let n := N_of_ascii c in
  if (n <? 58)%N then (n - 48)%N else (n - 87)%N.

(** ** Errors *)

(** The error values the adapter can return.  [ErrBlockNotFound] and
    [ErrTxNotFound] are the sentinel values of package [bchain];
    [ErrNew] is an error built by [errors.New] or [errors.Errorf],
    [ErrAnnotate] one wrapped by [errors.Annotatef]; [ErrRPC] is any error
    handed back by the RPC client (dial failure, transport, timeout, node
    error object) and [ErrJSON] any error of [encoding/json]. *)
Inductive error : Type :=
| ErrBlockNotFound
| ErrTxNotFound
| ErrNew (msg : string)
| ErrAnnotate (cause : error) (msg : string)
| ErrRPC (msg : string)
| ErrJSON (msg : string).

Definition errors_New (msg : string) : error := ErrNew msg.
Definition errors_Errorf (msg : string) : error := ErrNew msg.
Definition errors_Annotatef (cause : error) (msg : string) : error :=
  ErrAnnotate cause msg.

(** Errors that come from the RPC layer, as opposed to the ones the
    adapter itself decides on. *)
Definition is_transport (e : error) : bool :=
  match e with
  | ErrRPC _ | ErrJSON _ => true
  | _ => false
  end.

Definition is_not_found (e : error) : bool :=
  match e with
  | ErrBlockNotFound | ErrTxNotFound => true
  | _ => false
  end.

(** The text handed to [errors.New], when the error was built that way. *)
Definition new_text (e : option error) : option string :=
  match e with
  | Some (ErrNew msg) => Some msg
  | _ => None
  end.

(** What a caller does who pattern-matches on the phrase "not supported". *)
Definition matches_not_supported (e : option error) : bool :=
  match new_text e with
  | Some msg => Contains msg "not supported"
  | None => false
  end.

(** ** Wire shapes (nimparser.go) *)

Definition NimiqTypeAddressDescriptorLen : Z := 20.
Definition EtherAmountDecimalPoint : Z := 5.

Record rpcHeader : Type := {
  rpcHeader_Number : Z;            (* int64 *)
  rpcHeader_Hash : string;
  rpcHeader_PoW : string;
  rpcHeader_ParentHash : string;
  rpcHeader_Nonce : string;
  rpcHeader_BodyHash : string;
  rpcHeader_AccountsHash : string;
  rpcHeader_Miner : string;
  rpcHeader_MinerAddress : string;
  rpcHeader_Difficulty : string;
  rpcHeader_ExtraData : string;
  rpcHeader_Size : Z;              (* uint64 *)
  rpcHeader_Time : Z               (* int64 *)
}.

Record rpcLightBlock : Type := {
  rpcLightBlock_Txs : list string
}.

Record rpcTx : Type := {
  rpcTx_Hash : string;
  rpcTx_BlockHash : string;
  rpcTx_Timestamp : Z;             (* uint64 *)
  rpcTx_Confirmations : Z;         (* int *)
  rpcTx_TransactionIndex : Z;      (* int *)
  rpcTx_From : string;
  rpcTx_FromAddress : string;
  rpcTx_To : string;
  rpcTx_ToAddress : string;
  rpcTx_Value : Z;                 (* uint64 *)
  rpcTx_Fee : Z                    (* uint64 *)
}.

Record rpcBlock : Type := {
  rpcBlock_Txs : list rpcTx
}.

(** A wire transaction as the JSON decoder can produce it: the unsigned
    fields are within their type. *)
Definition wf_rpcTx (tx : rpcTx) : Prop :=
  is_uint64 (rpcTx_Timestamp tx) /\
  is_uint64 (rpcTx_Value tx) /\
  is_uint64 (rpcTx_Fee tx).

(** ** Canonical shapes (package bchain) *)

(** Modelled from the spec: [bchain.Vin], the synthetic input of a
    canonical transaction; of its declaration, which is not among the
    sources, only the field the adapter assigns is kept. *)
Record Vin : Type := {
  Vin_Addresses : list string
}.

(** Modelled from the spec: [bchain.ScriptPubKey], restricted to the field
    the adapter assigns. *)
Record ScriptPubKey : Type := {
  ScriptPubKey_Addresses : list string
}.

(** Modelled from the spec: [bchain.Vout], the synthetic output; [ValueSat]
    is a [big.Int], hence an unbounded [Z]. *)
Record Vout : Type := {
  Vout_N : Z;
  Vout_ValueSat : Z;
  Vout_ScriptPubKey : ScriptPubKey
}.

(** Modelled from the spec: [bchain.Tx], restricted to the fields the
    adapter assigns. *)
Record Tx : Type := {
  Tx_Txid : string;
  Tx_Vin : list Vin;
  Tx_Vout : list Vout
}.

(** Modelled from the spec: [bchain.BlockHeader], restricted to the fields
    the adapter assigns (hash, parent hash, height, size, time). *)
Record BlockHeader : Type := {
  BlockHeader_Hash : string;
  BlockHeader_Prev : string;
  BlockHeader_Height : Z;          (* uint32 *)
  BlockHeader_Size : Z;            (* int *)
  BlockHeader_Time : Z             (* int64 *)
}.

(** Modelled from the spec: [bchain.Block], a header and the mapped
    transactions in the order of the response. *)
Record Block : Type := {
  Block_BlockHeader : BlockHeader;
  Block_Txs : list Tx
}.

(** Modelled from the spec: [bchain.BlockInfo], the block summary; the
    [json.Number] fields are strings. *)
Record BlockInfo : Type := {
  BlockInfo_BlockHeader : BlockHeader;
  BlockInfo_Difficulty : string;
  BlockInfo_Nonce : string;
  BlockInfo_Txids : list string
}.

(** Modelled from the spec: [bchain.BaseParser], restricted to the fields
    [NewEthereumParser] sets. *)
Record BaseParser : Type := {
  BaseParser_BlockAddressesToKeep : Z;
  BaseParser_AmountDecimalPoint : Z
}.

Record NimiqParser : Type := {
  NimiqParser_BaseParser : option BaseParser
}.

(** Modelled from the spec: [bchain.BaseChain], the part of the connector
    state shared with the platform: the parser, the testnet flag and the
    network label. *)
Record BaseChain : Type := {
  BaseChain_Parser : option NimiqParser;
  BaseChain_Testnet : bool;
  BaseChain_Network : string
}.

(** The zero value [bchain.BaseChain{}]. *)
Definition BaseChain_zero : BaseChain :=
  {| BaseChain_Parser := None;
     BaseChain_Testnet := false;
     BaseChain_Network := "" |}.

(** ** Connector state *)

(** NimiqNet, the type of Nimiq network. *)
Definition MainNet : Z := 42.
Definition TestNet : Z := 1.

Record Configuration : Type := {
  Configuration_CoinName : string;
  Configuration_CoinShortcut : string;
  Configuration_RPCURL : string;
  Configuration_RPCTimeout : Z;            (* int *)
  Configuration_BlockAddressesToKeep : Z   (* int *)
}.

(** The assignment [c.BlockAddressesToKeep = n]. *)
Definition set_BlockAddressesToKeep (c : Configuration) (n : Z)
  : Configuration :=
  {| Configuration_CoinName := Configuration_CoinName c;
     Configuration_CoinShortcut := Configuration_CoinShortcut c;
     Configuration_RPCURL := Configuration_RPCURL c;
     Configuration_RPCTimeout := Configuration_RPCTimeout c;
     Configuration_BlockAddressesToKeep := n |}.

(** An open [*rpc.Client] is an opaque handle; what the connection does
    lives in the world. *)
Inductive Client : Type := ClientHandle (id : nat).

(** The receiver of every method.  The three pointer fields are nil in the
    zero value of the struct, hence options. *)
Record NimiqRPC : Type := {
  NimiqRPC_BaseChain : option BaseChain;
  NimiqRPC_rpc : option Client;
  NimiqRPC_timeout : Z;                    (* time.Duration, an int64 *)
  NimiqRPC_ChainConfig : option Configuration
}.

(** The assignments [b.Testnet = t; b.Network = n] through the embedded
    [*bchain.BaseChain]. *)
Definition set_network (b : NimiqRPC) (bc : BaseChain) (t : bool)
  (n : string) : NimiqRPC :=
  {| NimiqRPC_BaseChain :=
       Some {| BaseChain_Parser := BaseChain_Parser bc;
               BaseChain_Testnet := t;
               BaseChain_Network := n |};
     NimiqRPC_rpc := NimiqRPC_rpc b;
     NimiqRPC_timeout := NimiqRPC_timeout b;
     NimiqRPC_ChainConfig := NimiqRPC_ChainConfig b |}.

(** ** Translator (nimparser.go) *)

Definition NewEthereumParser (b : Z) : NimiqParser :=
  {| NimiqParser_BaseParser :=
       Some {| BaseParser_BlockAddressesToKeep := b;
               BaseParser_AmountDecimalPoint := EtherAmountDecimalPoint |} |}.

Definition nimHeaderToBlockHeader (b : NimiqRPC) (block : rpcHeader)
  : BlockHeader :=
  {| BlockHeader_Hash := rpcHeader_Hash block;
     BlockHeader_Prev := rpcHeader_ParentHash block;
     BlockHeader_Height := to_uint32 (rpcHeader_Number block);
     BlockHeader_Size := to_int (rpcHeader_Size block);
     BlockHeader_Time := rpcHeader_Time block |}.

Definition nimTxToTx (b : NimiqRPC) (tx : rpcTx) : Tx :=
  {| Tx_Txid := rpcTx_Hash tx;
     Tx_Vin := [ {| Vin_Addresses := [rpcTx_From tx] |} ];
     Tx_Vout :=
       [ {| Vout_N := 0;
            Vout_ValueSat := to_int64 (rpcTx_Value tx);
            Vout_ScriptPubKey :=
              {| ScriptPubKey_Addresses := [rpcTx_To tx] |} |} ] |}.

(** ** The outside world *)

(** Arguments of a JSON-RPC call. *)
Inductive Arg : Type :=
| AString (s : string)
| AUint32 (n : Z)
| ABool (v : bool).

(** A [context.Context] is what it does to a call: the time it allows, in
    nanoseconds. *)
Definition context_Context : Type := Z.

(** [context.WithTimeout(context.Background(), timeout)]; the cancel
    function it also returns has no effect the adapter can see. *)
Definition context_WithTimeout (timeout : Z) : context_Context := timeout.

(** Everything the connector uses but does not define: the RPC client of
    go-ethereum, [encoding/json] at each type it is used at, the genesis
    hashes of package [networks], and the [bchain] types that are only
    passed around. *)
Class Platform : Type := {
  (** state of the node and of the network between it and the adapter *)
  NodeState : Type;
  (** [rpc.Dial(url)]: an error text or an open client *)
  rpc_Dial : string -> NodeState -> (string + Client) * NodeState;
  (** one request and its response: an error text or the raw result *)
  rpc_roundtrip :
    Client -> context_Context -> string -> list Arg -> NodeState ->
    (string + list byte) * NodeState;
  (** [Close] of the client: it returns nothing and may be called more
      than once *)
  rpc_Close : Client -> NodeState -> NodeState;
  (** [json.Unmarshal] into a zero value of each target type; a pointer
      target stays nil, [None], on a JSON null *)
  unmarshal_Configuration : list byte -> string + Configuration;
  unmarshal_rpcHeader : list byte -> string + rpcHeader;
  unmarshal_rpcBlock : list byte -> string + rpcBlock;
  unmarshal_rpcLightBlock : list byte -> string + rpcLightBlock;
  unmarshal_ptr_rpcHeader : list byte -> string + option rpcHeader;
  unmarshal_ptr_rpcTx : list byte -> string + option rpcTx;
  unmarshal_uint32 : list byte -> string + Z;
  unmarshal_string : list byte -> string + string;
  unmarshal_strings : list byte -> string + list string;
  (** [networks.MainNet.Hash], [networks.TestNet.Hash],
      [networks.DevNet.Hash] *)
  networks_MainNet_Hash : list byte;
  networks_TestNet_Hash : list byte;
  networks_DevNet_Hash : list byte;
  (** [bchain.ChainInfo], [bchain.MempoolEntry], [bchain.Outpoint] *)
  ChainInfo : Type;
  MempoolEntry : Type;
  Outpoint : Type
}.

(** [json.Unmarshal] into a [json.RawMessage] copies the bytes. *)
Definition unmarshal_RawMessage (raw : list byte) : string + list byte :=
  inr raw.

(** What the adapter does to the world, in order. *)
Inductive Event : Type :=
| EvDial (url : string)
| EvCall (c : Client) (ctx : context_Context) (method : string)
    (args : list Arg)
| EvClose (c : Client)
| EvLog (msg : string).

Section Connector.

Context {P : Platform}.

Record World : Type := {
  node : NodeState;
  trace : list Event
}.

(** A computation either panics ([None]) or returns a value and the next
    world. *)
Definition M (A : Type) : Type := World -> option (A * World).

Definition ret {A : Type} (a : A) : M A := fun w => Some (a, w).

Definition bind {A B : Type} (m : M A) (k : A -> M B) : M B :=
  fun w => match m w with
           | Some (a, w') => k a w'
           | None => None
           end.

(** A nil pointer dereference. *)
Definition panic {A : Type} : M A := fun _ => None.

Definition record (e : Event) (w : World) : World :=
  {| node := node w; trace := trace w ++ [e] |}.

Definition set_node (n : NodeState) (w : World) : World :=
  {| node := n; trace := trace w |}.

(** [glog.Info(msg)]. *)
Definition glog_Info (msg : string) : M unit :=
  fun w => Some (tt, record (EvLog msg) w).

(** [rpc.Dial(url)]. *)
Definition Dial (url : string) : M (option Client * option error) :=
  fun w =>
    let (r, n) := rpc_Dial url (node w) in
    let w' := record (EvDial url) (set_node n w) in
    match r with
    | inl msg => Some ((None, Some (ErrRPC msg)), w')
    | inr c => Some ((Some c, None), w')
    end.

(** [c.CallContext(ctx, &result, method, args...)]: the new content of
    [result] and the error.  A nil client panics; a failed call or a
    failed decoding leaves an error, and no caller reads [result] then;
    otherwise [result] holds the decoded response. *)
Definition CallContext {T : Type} (c : option Client)
  (ctx : context_Context)
  (unmarshal : list byte -> string + T) (result : T)
  (method : string) (args : list Arg) : M (T * option error) :=
  match c with
  | None => panic
  | Some cl =>
      fun w =>
        let (r, n) := rpc_roundtrip cl ctx method args (node w) in
        let w' := record (EvCall cl ctx method args) (set_node n w) in
        match r with
        | inl msg => Some ((result, Some (ErrRPC msg)), w')
        | inr raw =>
            match unmarshal raw with
            | inl msg => Some ((result, Some (ErrJSON msg)), w')
            | inr v => Some ((v, None), w')
            end
        end
  end.

(** [c.Close()]. *)
Definition Close (c : Client) : M unit :=
  fun w => Some (tt, record (EvClose c) (set_node (rpc_Close c (node w)) w)).

(** The world after one round trip of [c]. *)
Definition after_call (c : Client) (ctx : context_Context)
  (method : string) (args : list Arg) (w : World) : World :=
  record (EvCall c ctx method args)
    (set_node (snd (rpc_roundtrip c ctx method args (node w))) w).

(** The node answers the call with a result that leaves a pointer target
    nil: a JSON null. *)
Definition returns_null {T : Type}
  (unmarshal : list byte -> string + option T) (c : Client)
  (ctx : context_Context)
  (method : string) (args : list Arg) (w : World) : Prop :=
  exists raw,
    fst (rpc_roundtrip c ctx method args (node w)) = inr raw /\
    unmarshal raw = inr None.

(** The node answers the call with the payload [raw]. *)
Definition returns_payload (c : Client) (ctx : context_Context)
  (method : string) (args : list Arg) (w : World) (raw : list byte) : Prop :=
  fst (rpc_roundtrip c ctx method args (node w)) = inr raw.

End Connector.

Notation "x <- m ;; k" := (bind m (fun x => k))
  (at level 61, m at next level, right associativity).
Notation "' pat <- m ;; k" :=
  (bind m (fun x => match x with pat => k end))
  (at level 61, pat pattern, m at next level, right associativity).

Section Operations.

Context {P : Platform}.

(** [time.Duration(n) * time.Second]. *)
Definition seconds (n : Z) : Z := to_int64 (to_int64 n * time_Second).

Definition NewNimiqRPC {H : Type} (config : list byte) (pushHandler : H)
  : M (option NimiqRPC * option error) :=
  match unmarshal_Configuration config with
  | inl msg =>
      ret (None,
           Some (errors_Annotatef (ErrJSON msg) "Invalid configuration file"))
  | inr c =>
      (* keep at least 100 mappings block->addresses to allow rollback *)
      let c :=
        if (Configuration_BlockAddressesToKeep c <? 100)%Z
        then set_BlockAddressesToKeep c 100
        else c in
      '(rc, err) <- Dial (Configuration_RPCURL c) ;;
      match err with
      | Some e => ret (None, Some e)
      | None =>
          let s :=
            {| NimiqRPC_BaseChain := Some BaseChain_zero;
               NimiqRPC_rpc := rc;
               NimiqRPC_ChainConfig := Some c;
               NimiqRPC_timeout := seconds (Configuration_RPCTimeout c) |} in
          ret (Some s, None)
      end
  end.

(** GetBlock returns block with given hash or height, hash has precedence
    if both passed. *)
Definition GetBlock (b : NimiqRPC) (hash : string) (height : Z)
  : M (option Block * option error) :=
  let ctx := context_WithTimeout (NimiqRPC_timeout b) in
  '(raw, err) <-
    (if negb (hash =? "")%string
     then CallContext (NimiqRPC_rpc b) ctx unmarshal_RawMessage []
            "getBlockByHash" [AString hash; ABool true]
     else CallContext (NimiqRPC_rpc b) ctx unmarshal_RawMessage []
            "getBlockByNumber" [AUint32 height; ABool true]) ;;
  match err with
  | Some e => ret (None, Some e)
  | None =>
      let where_ := "hash " ++ hash ++ ", height " ++ fmt_uint height in
      match unmarshal_rpcHeader raw with
      | inl msg => ret (None, Some (errors_Annotatef (ErrJSON msg) where_))
      | inr head =>
          match unmarshal_rpcBlock raw with
          | inl msg =>
              ret (None, Some (errors_Annotatef (ErrJSON msg) where_))
          | inr body =>
              let bbh := nimHeaderToBlockHeader b head in
              let btxs := map (nimTxToTx b) (rpcBlock_Txs body) in
              ret (Some {| Block_BlockHeader := bbh; Block_Txs := btxs |},
                   None)
          end
      end
  end.

(** The assignments of one case of the switch in [Initialize]; they go
    through the embedded [BaseChain] pointer. *)
Definition assign_network (b : NimiqRPC) (t : bool) (n : string)
  : M (NimiqRPC * option error) :=
  match NimiqRPC_BaseChain b with
  | None => panic
  | Some bc => ret (set_network b bc t n, None)
  end.

(** Initialize: fetch the block at height 1 and switch on its hash; the
    updated receiver is returned with the error. *)
Definition Initialize (b : NimiqRPC) : M (NimiqRPC * option error) :=
  '(genesis, err) <- GetBlock b "" 1 ;;
  match err with
  | Some e => ret (b, Some e)
  | None =>
      match genesis with
      | None => panic
      | Some g =>
          let h := BlockHeader_Hash (Block_BlockHeader g) in
          '(b1, err) <-
            (if (h =? EncodeToString networks_MainNet_Hash)%string then
               assign_network b false "mainnet"
             else if (h =? EncodeToString networks_TestNet_Hash)%string then
               assign_network b true "testnet"
             else if (h =? EncodeToString networks_DevNet_Hash)%string then
               assign_network b true "devnet"
             else
               ret (b, Some (errors_Errorf
                               ("Unknown network genesis " ++ h)))) ;;
          match err with
          | Some e => ret (b1, Some e)
          | None =>
              match NimiqRPC_BaseChain b1 with
              | None => panic
              | Some bc =>
                  _ <- glog_Info
                         ("rpc: block chain " ++ BaseChain_Network bc) ;;
                  ret (b1, None)
              end
          end
      end
  end.

(** GetCoinName returns coin name. *)
Definition GetCoinName (b : NimiqRPC) : M string :=
  match NimiqRPC_ChainConfig b with
  | None => panic
  | Some c => ret (Configuration_CoinName c)
  end.

(** GetSubversion returns empty string. *)
Definition GetSubversion (b : NimiqRPC) : string := "".

(** GetChainInfo: the context it makes is cancelled unused. *)
Definition GetChainInfo (b : NimiqRPC) : option ChainInfo * option error :=
  let ctx := context_WithTimeout (NimiqRPC_timeout b) in
  (None, Some (errors_New "not implemented")).

(** Shutdown cleans up the rpc interface. *)
Definition Shutdown (b : NimiqRPC) (ctx : context_Context) : M (option error) :=
  _ <- match NimiqRPC_rpc b with
       | Some c => Close c
       | None => ret tt
       end ;;
  _ <- glog_Info "rpc: shutdown" ;;
  ret None.

(** GetBestBlockHeight returns height of the tip of the best-block-chain. *)
Definition GetBestBlockHeight (b : NimiqRPC) : M (Z * option error) :=
  let ctx := context_WithTimeout (NimiqRPC_timeout b) in
  '(headNum, err) <-
    CallContext (NimiqRPC_rpc b) ctx unmarshal_uint32 0 "blockNumber" [] ;;
  match err with
  | Some e => ret (0, Some e)
  | None => ret (headNum, None)
  end.

(** GetBestBlockHash returns hash of the tip of the best-block-chain. *)
Definition GetBestBlockHash (b : NimiqRPC) : M (string * option error) :=
  '(headNum, err) <- GetBestBlockHeight b ;;
  match err with
  | Some e => ret ("", Some e)
  | None =>
      let ctx := context_WithTimeout (NimiqRPC_timeout b) in
      '(block, err) <-
        CallContext (NimiqRPC_rpc b) ctx unmarshal_ptr_rpcHeader None
          "getBlockByNumber" [AUint32 headNum] ;;
      match err, block with
      | Some e, _ => ret ("", Some e)
      | None, None => ret ("", Some ErrBlockNotFound)
      | None, Some blk => ret (rpcHeader_Hash blk, None)
      end
  end.

(** GetBlockHash returns hash of block in best-block-chain at given
    height. *)
Definition GetBlockHash (b : NimiqRPC) (height : Z)
  : M (string * option error) :=
  let ctx := context_WithTimeout (NimiqRPC_timeout b) in
  '(block, err) <-
    CallContext (NimiqRPC_rpc b) ctx unmarshal_ptr_rpcHeader None
      "getBlockByNumber" [AUint32 height] ;;
  match err, block with
  | Some e, _ => ret ("", Some e)
  | None, None => ret ("", Some ErrBlockNotFound)
  | None, Some blk => ret (rpcHeader_Hash blk, None)
  end.

(** GetBlockHeader returns header of block with given hash. *)
Definition GetBlockHeader (b : NimiqRPC) (hash : string)
  : M (option BlockHeader * option error) :=
  let ctx := context_WithTimeout (NimiqRPC_timeout b) in
  '(block, err) <-
    CallContext (NimiqRPC_rpc b) ctx unmarshal_ptr_rpcHeader None
      "getBlockByHash" [AString hash] ;;
  match err, block with
  | Some e, _ => ret (None, Some e)
  | None, None => ret (None, Some ErrBlockNotFound)
  | None, Some blk =>
      let h := nimHeaderToBlockHeader b blk in
      ret (Some h, None)
  end.

(** GetBlockInfo returns extended header with a list of txids. *)
Definition GetBlockInfo (b : NimiqRPC) (hash : string)
  : M (option BlockInfo * option error) :=
  let ctx := context_WithTimeout (NimiqRPC_timeout b) in
  '(raw, err) <-
    CallContext (NimiqRPC_rpc b) ctx unmarshal_RawMessage []
      "getBlockByHash" [AString hash; ABool false] ;;
  match err with
  | Some e => ret (None, Some e)
  | None =>
      let where_ := "hash " ++ hash in
      match unmarshal_rpcHeader raw with
      | inl msg => ret (None, Some (errors_Annotatef (ErrJSON msg) where_))
      | inr head =>
          match unmarshal_rpcLightBlock raw with
          | inl msg =>
              ret (None, Some (errors_Annotatef (ErrJSON msg) where_))
          | inr body =>
              let bbh := nimHeaderToBlockHeader b head in
              ret (Some {| BlockInfo_BlockHeader := bbh;
                           BlockInfo_Difficulty := rpcHeader_Difficulty head;
                           BlockInfo_Nonce := rpcHeader_Nonce head;
                           BlockInfo_Txids := rpcLightBlock_Txs body |},
                   None)
          end
      end
  end.

(** GetTransactionForMempool returns a transaction by the transaction
    ID. *)
Definition GetTransactionForMempool (b : NimiqRPC) (txid : string)
  : option Tx * option error :=
  (None, Some (errors_New "GetTransactionForMempool: not supported")).

(** GetTransaction returns a transaction by the transaction ID. *)
Definition GetTransaction (b : NimiqRPC) (txid : string)
  : M (option Tx * option error) :=
  let ctx := context_WithTimeout (NimiqRPC_timeout b) in
  '(tx, err) <-
    CallContext (NimiqRPC_rpc b) ctx unmarshal_ptr_rpcTx None
      "getTransactionByHash" [AString txid] ;;
  match err, tx with
  | Some e, _ => ret (None, Some e)
  | None, None => ret (None, Some ErrTxNotFound)
  | None, Some t => ret (Some (nimTxToTx b t), None)
  end.

(** GetTransactionSpecific returns json as returned by backend; the nil
    [json.RawMessage] is the empty byte slice. *)
Definition GetTransactionSpecific (b : NimiqRPC) (tx : option Tx)
  : list byte * option error :=
  ([], Some (errors_New "GetTransactionSpecific: not supported")).

(** GetMempool returns transactions in mempool. *)
Definition GetMempool (b : NimiqRPC) : M (list string * option error) :=
  let ctx := context_WithTimeout (NimiqRPC_timeout b) in
  '(txHashes, err) <-
    CallContext (NimiqRPC_rpc b) ctx unmarshal_strings []
      "mempoolContent" [ABool false] ;;
  match err with
  | Some e => ret ([], Some e)
  | None => ret (txHashes, None)
  end.

(** EstimateFee returns fee estimation. *)
Definition EstimateFee (b : NimiqRPC) (blocks : Z) : Z * option error :=
  (0, Some (errors_New "GetMempoolEntry: not supported")).

(** EstimateSmartFee returns fee estimation. *)
Definition EstimateSmartFee (b : NimiqRPC) (blocks : Z) (conservative : bool)
  : Z * option error :=
  (0, Some (errors_New "EstimateSmartFee: not supported")).

(** SendRawTransaction sends raw transaction. *)
Definition SendRawTransaction (b : NimiqRPC) (hex : string)
  : M (string * option error) :=
  let ctx := context_WithTimeout (NimiqRPC_timeout b) in
  '(txHash, err) <-
    CallContext (NimiqRPC_rpc b) ctx unmarshal_string ""
      "sendRawTransaction" [AString hex] ;;
  match err with
  | Some e => ret ("", Some e)
  | None => ret (txHash, None)
  end.

(** ResyncMempool: the return value is the number of transactions in
    mempool. *)
Definition ResyncMempool {F : Type} (b : NimiqRPC) (onNewTxAddr : F)
  : Z * option error :=
  (0, Some (errors_New "not implemented")).

(** GetMempoolTransactions returns slice of mempool transactions for given
    address. *)
Definition GetMempoolTransactions (b : NimiqRPC) (address : string)
  : list Outpoint * option error :=
  ([], Some (errors_New "GetMempoolTransactions: not supported")).

(** GetMempoolTransactionsForAddrDesc returns slice of mempool transactions
    for given address descriptor. *)
Definition GetMempoolTransactionsForAddrDesc (b : NimiqRPC)
  (addrDesc : list byte) : list Outpoint * option error :=
  ([], Some (errors_New "GetMempoolTransactionsForAddrDesc: not supported")).

(** GetMempoolEntry is not supported by Nimiq. *)
Definition GetMempoolEntry (b : NimiqRPC) (txid : string)
  : option MempoolEntry * option error :=
  (None, Some (errors_New "GetMempoolEntry: not supported")).

(** GetChainParser returns Nimiq BlockChainParser. *)
Definition GetChainParser (b : NimiqRPC) : M (option NimiqParser) :=
  match NimiqRPC_BaseChain b with
  | None => panic
  | Some bc => ret (BaseChain_Parser bc)
  end.

(** The errors of the nine unsupported operations, in the order
    transaction for mempool, coin-specific transaction, simple fee, smart
    fee, mempool resynchronization, mempool transactions by address and by
    descriptor, mempool entry, chain info. *)
Definition unsupported_errors {F : Type} (b : NimiqRPC) (txid : string)
  (tx : option Tx) (blocks : Z) (conservative : bool) (onNewTxAddr : F)
  (address : string) (addrDesc : list byte) : list (option error) :=
  [ snd (GetTransactionForMempool b txid);
    snd (GetTransactionSpecific b tx);
    snd (EstimateFee b blocks);
    snd (EstimateSmartFee b blocks conservative);
    snd (ResyncMempool b onNewTxAddr);
    snd (GetMempoolTransactions b address);
    snd (GetMempoolTransactionsForAddrDesc b addrDesc);
    snd (GetMempoolEntry b txid);
    snd (GetChainInfo b) ].

End Operations.

(** ** A stub platform

    A small node used to run the operations on concrete inputs.  Its state
    is the payload it serves for the full block at height 1.  The empty
    payload stands for the JSON [null]; any other payload decodes to a
    header whose hash is the hex encoding of the payload. *)
Module Stub.

Definition header_of (raw : list byte) : rpcHeader :=
  {| rpcHeader_Number := Z.of_nat (List.length raw);
     rpcHeader_Hash := EncodeToString raw;
     rpcHeader_PoW := "";
     rpcHeader_ParentHash := "";
     rpcHeader_Nonce := "";
     rpcHeader_BodyHash := "";
     rpcHeader_AccountsHash := "";
     rpcHeader_Miner := "";
     rpcHeader_MinerAddress := "";
     rpcHeader_Difficulty := "";
     rpcHeader_ExtraData := "";
     rpcHeader_Size := 0;
     rpcHeader_Time := 0 |}.

Definition tx_of (raw : list byte) : rpcTx :=
  {| rpcTx_Hash := EncodeToString raw;
     rpcTx_BlockHash := "";
     rpcTx_Timestamp := 0;
     rpcTx_Confirmations := 0;
     rpcTx_TransactionIndex := 0;
     rpcTx_From := "";
     rpcTx_FromAddress := "";
     rpcTx_To := "";
     rpcTx_ToAddress := "";
     rpcTx_Value := Z.of_nat (List.length raw);
     rpcTx_Fee := 0 |}.

Definition config_of (raw : list byte) : string + Configuration :=
  match raw with
  | [] => inl "unexpected end of JSON input"
  | v :: _ =>
      inr {| Configuration_CoinName := "Nimiq";
             Configuration_CoinShortcut := "NIM";
             Configuration_RPCURL := "http://localhost:8648";
             Configuration_RPCTimeout := 25;
             Configuration_BlockAddressesToKeep := Z.of_N (Byte.to_N v) |}
  end.

Definition dial (url : string) (n : list byte)
  : (string + Client) * list byte :=
  if (url =? "")%string then (inl "dial: no endpoint", n)
  else (inr (ClientHandle 0), n).

Definition roundtrip (c : Client) (ctx : context_Context)
  (method : string) (args : list Arg) (n : list byte)
  : (string + list byte) * list byte :=
  if (method =? "blockNumber")%string then (inr [x07], n)
  else if (method =? "getBlockByNumber")%string then
    match args with
    | [AUint32 1; ABool true] => (inr n, n)
    | _ => (inr [], n)
    end
  else if (method =? "getBlockByHash")%string then
    match args with
    | [AString h; ABool _] => (inr (list_byte_of_string h), n)
    | _ => (inr [], n)
    end
  else if (method =? "getTransactionByHash")%string then (inr [], n)
  else (inl "method not found", n).

Definition ptr {T : Type} (f : list byte -> T) (raw : list byte)
  : string + option T :=
  match raw with
  | [] => inr None
  | _ => inr (Some (f raw))
  end.

Definition main_hash : list byte := repeat x2a 32.
Definition test_hash : list byte := repeat x01 32.
Definition dev_hash : list byte := repeat x02 32.
Definition other_hash : list byte := repeat xff 32.

Definition platform : Platform :=
  {| NodeState := list byte;
     rpc_Dial := dial;
     rpc_roundtrip := roundtrip;
     rpc_Close := fun _ n => n;
     unmarshal_Configuration := config_of;
     unmarshal_rpcHeader := fun raw => inr (header_of raw);
     unmarshal_rpcBlock := fun raw => inr {| rpcBlock_Txs := [] |};
     unmarshal_rpcLightBlock :=
       fun raw => inr {| rpcLightBlock_Txs := [] |};
     unmarshal_ptr_rpcHeader := ptr header_of;
     unmarshal_ptr_rpcTx := ptr tx_of;
     unmarshal_uint32 := fun raw => inr (Z.of_nat (List.length raw));
     unmarshal_string := fun raw => inr (EncodeToString raw);
     unmarshal_strings := fun raw => inr [];
     networks_MainNet_Hash := main_hash;
     networks_TestNet_Hash := test_hash;
     networks_DevNet_Hash := dev_hash;
     ChainInfo := unit;
     MempoolEntry := unit;
     Outpoint := unit |}.

(** A connector as [NewNimiqRPC] leaves it. *)
Definition adapter : NimiqRPC :=
  {| NimiqRPC_BaseChain := Some BaseChain_zero;
     NimiqRPC_rpc := Some (ClientHandle 0);
     NimiqRPC_timeout := 25000000000;
     NimiqRPC_ChainConfig := None |}.

(** The zero value of the struct: nothing was ever opened. *)
Definition unopened : NimiqRPC :=
  {| NimiqRPC_BaseChain := None;
     NimiqRPC_rpc := None;
     NimiqRPC_timeout := 0;
     NimiqRPC_ChainConfig := None |}.

(** The world in which the node serves [genesis] at height 1. *)
Definition world (genesis : list byte) : @World platform :=
  @Build_World platform genesis [].

(** A wire transaction that moves [v] units. *)
Definition transfer (v : Z) : rpcTx :=
  {| rpcTx_Hash := "9f3c";
     rpcTx_BlockHash := "264a";
     rpcTx_Timestamp := 1523727000;
     rpcTx_Confirmations := 3;
     rpcTx_TransactionIndex := 0;
     rpcTx_From := "ad25610feb43d75307763d3f010822a757027429";
     rpcTx_FromAddress := "NQ15 MLJN 23YB 8FBM 61TN 7LYG 2212 LVBG 4V19";
     rpcTx_To := "824aa01033c89595479bab9d8deb3fc3a3e65e2d";
     rpcTx_ToAddress := "NQ13 G95A 041K R2AR AHUT MEES TSRY QEHX CPHD";
     rpcTx_Value := v;
     rpcTx_Fee := 138 |}.

End Stub.

(** ** What construction leaves behind *)

(** The three pointers of a connector are set: the state the methods rely
    on when they go through [b.rpc], the embedded [BaseChain] and
    [b.ChainConfig] without a nil check. *)
Definition constructed (s : NimiqRPC) : Prop :=
  NimiqRPC_rpc s <> None /\
  NimiqRPC_BaseChain s <> None /\
  NimiqRPC_ChainConfig s <> None.

(** ** A scripted platform

    A second node for concrete runs.  Its state is the list of responses it
    still has to give, one per request, whatever the request; when the list
    is used up the connection is refused.  A payload that starts with the
    byte 0 is malformed for every decoder, one that starts with the byte 1
    carries a header but a malformed transaction list, the empty payload is
    the JSON [null], and any other payload carries one transaction per
    byte. *)
Module Scripted.

Definition tx_of_byte (v : byte) : rpcTx :=
  {| rpcTx_Hash := EncodeToString [v];
     rpcTx_BlockHash := "";
     rpcTx_Timestamp := 0;
     rpcTx_Confirmations := 0;
     rpcTx_TransactionIndex := 0;
     rpcTx_From := "ad25610feb43d75307763d3f010822a757027429";
     rpcTx_FromAddress := "";
     rpcTx_To := "824aa01033c89595479bab9d8deb3fc3a3e65e2d";
     rpcTx_ToAddress := "";
     rpcTx_Value := Z.of_N (Byte.to_N v);
     rpcTx_Fee := 0 |}.

(** Whether the payload starts with the byte [t]. *)
Definition starts_with (t : byte) (raw : list byte) : bool :=
  match raw with
  | v :: _ => Byte.eqb v t
  | [] => false
  end.

Definition header (raw : list byte) : string + rpcHeader :=
  if starts_with x00 raw then inl "invalid character"
  else inr (Stub.header_of raw).

Definition block (raw : list byte) : string + rpcBlock :=
  if starts_with x00 raw then inl "invalid character"
  else if starts_with x01 raw then inl "cannot unmarshal string into rpcTx"
  else inr {| rpcBlock_Txs := map tx_of_byte raw |}.

Definition light (raw : list byte) : string + rpcLightBlock :=
  if starts_with x00 raw then inl "invalid character"
  else if starts_with x01 raw then inl "cannot unmarshal object into string"
  else inr {| rpcLightBlock_Txs := map (fun v => EncodeToString [v]) raw |}.

Definition ptr {T : Type} (f : list byte -> T) (raw : list byte)
  : string + option T :=
  match raw with
  | [] => inr None
  | _ =>
      if starts_with x00 raw then inl "invalid character"
      else inr (Some (f raw))
  end.

Definition value {T : Type} (f : list byte -> T) (raw : list byte)
  : string + T :=
  if starts_with x00 raw then inl "invalid character"
  else inr (f raw).

(** The first byte is the number of mappings to keep; a second byte asks
    for a timeout too long for a [time.Duration]. *)
Definition config_of (raw : list byte) : string + Configuration :=
  match raw with
  | [] => inl "unexpected end of JSON input"
  | v :: rest =>
      inr {| Configuration_CoinName := "Nimiq";
             Configuration_CoinShortcut := "NIM";
             Configuration_RPCURL := "http://localhost:8648";
             Configuration_RPCTimeout :=
               match rest with
               | [] => 25
               | _ => 9223372037
               end;
             Configuration_BlockAddressesToKeep := Z.of_N (Byte.to_N v) |}
  end.

Definition roundtrip (c : Client) (ctx : context_Context)
  (method : string) (args : list Arg) (n : list (string + list byte))
  : (string + list byte) * list (string + list byte) :=
  match n with
  | [] => (inl "connection refused", [])
  | r :: rest => (r, rest)
  end.

Definition dial (url : string) (n : list (string + list byte))
  : (string + Client) * list (string + list byte) :=
  match n with
  | [] => (inl "dial: connection refused", [])
  | _ => (inr (ClientHandle 1), n)
  end.

Definition platform : Platform :=
  {| NodeState := list (string + list byte);
     rpc_Dial := dial;
     rpc_roundtrip := roundtrip;
     rpc_Close := fun _ _ => [];
     unmarshal_Configuration := config_of;
     unmarshal_rpcHeader := header;
     unmarshal_rpcBlock := block;
     unmarshal_rpcLightBlock := light;
     unmarshal_ptr_rpcHeader := ptr Stub.header_of;
     unmarshal_ptr_rpcTx := ptr Stub.tx_of;
     unmarshal_uint32 := value (fun raw => Z.of_nat (List.length raw));
     unmarshal_string := value EncodeToString;
     unmarshal_strings :=
       value (map (fun v => EncodeToString [v]));
     networks_MainNet_Hash := Stub.main_hash;
     networks_TestNet_Hash := Stub.test_hash;
     networks_DevNet_Hash := Stub.dev_hash;
     ChainInfo := unit;
     MempoolEntry := unit;
     Outpoint := unit |}.

(** A connector as [NewNimiqRPC] leaves it on this platform. *)
Definition adapter : NimiqRPC :=
  {| NimiqRPC_BaseChain := Some BaseChain_zero;
     NimiqRPC_rpc := Some (ClientHandle 1);
     NimiqRPC_timeout := 25000000000;
     NimiqRPC_ChainConfig :=
       Some {| Configuration_CoinName := "Nimiq";
               Configuration_CoinShortcut := "NIM";
               Configuration_RPCURL := "http://localhost:8648";
               Configuration_RPCTimeout := 25;
               Configuration_BlockAddressesToKeep := 100 |} |}.

(** The world in which the node will give the responses [script]. *)
Definition world (script : list (string + list byte)) : @World platform :=
  @Build_World platform script [].

End Scripted.

(** * Properties *)

(** ** Hex encoding is injective *)

Lemma hexdigits_determine_byte (v : byte) :
  Byte.of_N
    (hexvalue (hexdigit (N.shiftr (Byte.to_N v) 4)) * 16
     + hexvalue (hexdigit (N.land (Byte.to_N v) 15)))%N = Some v.
Proof. destruct v; reflexivity. Qed.

Lemma EncodeToString_inj (a b : list byte) :
  EncodeToString a = EncodeToString b -> a = b.
Proof.
  revert b; induction a as [|x a IH]; intros [|y b]; cbn [EncodeToString];
    try discriminate; auto.
  intros E. injection E as Ehi Elo Erest.
  f_equal; [| now apply IH].
  assert (Hhi : hexdigit (N.shiftr (Byte.to_N x) 4)
                = hexdigit (N.shiftr (Byte.to_N y) 4)) by exact Ehi.
  assert (Hlo : hexdigit (N.land (Byte.to_N x) 15)
                = hexdigit (N.land (Byte.to_N y) 15)) by exact Elo.
  pose proof (hexdigits_determine_byte x) as Hx.
  pose proof (hexdigits_determine_byte y) as Hy.
  rewrite Hhi, Hlo, Hy in Hx. now injection Hx.
Qed.

(** ** Integer conversions *)

Lemma to_int64_small (v : Z) : 0 <= v < 2 ^ 63 -> to_int64 v = v.
Proof.
  intros Hv. unfold to_int64.
  rewrite Z.mod_small; lia.
Qed.

Lemma to_int64_large (v : Z) :
  2 ^ 63 <= v < 2 ^ 64 -> to_int64 v = v - 2 ^ 64.
Proof.
  intros Hv. unfold to_int64.
  replace (v + 2 ^ 63) with (v - 2 ^ 63 + 1 * 2 ^ 64) by lia.
  rewrite Z_mod_plus_full, Z.mod_small; lia.
Qed.

(** ** Translator *)

(** The mapping always makes one input holding the sender and one output
    holding the recipient; the output value is the wire value as long as
    that fits a signed 64-bit integer. *)
Lemma nimTxToTx_shape (b : NimiqRPC) (tx : rpcTx) :
  Tx_Txid (nimTxToTx b tx) = rpcTx_Hash tx /\
  Tx_Vin (nimTxToTx b tx) = [ {| Vin_Addresses := [rpcTx_From tx] |} ] /\
  exists vout,
    Tx_Vout (nimTxToTx b tx) = [vout] /\
    Vout_N vout = 0 /\
    ScriptPubKey_Addresses (Vout_ScriptPubKey vout) = [rpcTx_To tx] /\
    (0 <= rpcTx_Value tx < 2 ^ 63 -> Vout_ValueSat vout = rpcTx_Value tx).
Proof.
  split; [reflexivity|]. split; [reflexivity|].
  eexists. split; [reflexivity|]. cbn.
  repeat split. apply to_int64_small.
Qed.

(** C2 (evaluation at the failing input).  A well-formed wire transaction
    whose value is 2^63 is mapped to one input with the sender and one
    output with the recipient, but the output value is -2^63 and not the
    wire value. *)
Theorem nimTxToTx_value_not_wire_value :
  let tx := Stub.transfer (2 ^ 63) in
  wf_rpcTx tx /\
  map Vin_Addresses (Tx_Vin (nimTxToTx Stub.adapter tx))
    = [[rpcTx_From tx]] /\
  map (fun o => ScriptPubKey_Addresses (Vout_ScriptPubKey o))
      (Tx_Vout (nimTxToTx Stub.adapter tx))
    = [[rpcTx_To tx]] /\
  map Vout_ValueSat (Tx_Vout (nimTxToTx Stub.adapter tx)) = [- 2 ^ 63] /\
  map Vout_ValueSat (Tx_Vout (nimTxToTx Stub.adapter tx))
    <> [rpcTx_Value tx].
Proof.
  cbv zeta. repeat split; try (vm_compute; congruence).
Qed.

(** C9.  The wire value goes through [int64] before it becomes the
    canonical big integer: for a wire transaction whose value is at least
    2^63, the value of the single output is the wire value minus 2^64, a
    negative number. *)
Theorem nimTxToTx_value_wraps (b : NimiqRPC) (tx : rpcTx) :
  is_uint64 (rpcTx_Value tx) ->
  2 ^ 63 <= rpcTx_Value tx ->
  exists vout,
    Tx_Vout (nimTxToTx b tx) = [vout] /\
    Vout_ValueSat vout = to_int64 (rpcTx_Value tx) /\
    Vout_ValueSat vout = rpcTx_Value tx - 2 ^ 64 /\
    Vout_ValueSat vout < 0.
Proof.
  intros [Hlo Hhi] Hbig.
  eexists. split; [reflexivity|]. cbn.
  rewrite to_int64_large by lia.
  repeat split; lia.
Qed.

Lemma nimTxToTx_value_wraps_witness :
  is_uint64 (rpcTx_Value (Stub.transfer (2 ^ 63))) /\
  2 ^ 63 <= rpcTx_Value (Stub.transfer (2 ^ 63)) /\
  exists vout,
    Tx_Vout (nimTxToTx Stub.adapter (Stub.transfer (2 ^ 63))) = [vout] /\
    Vout_ValueSat vout = to_int64 (rpcTx_Value (Stub.transfer (2 ^ 63))) /\
    Vout_ValueSat vout = rpcTx_Value (Stub.transfer (2 ^ 63)) - 2 ^ 64 /\
    Vout_ValueSat vout < 0.
Proof.
  split; [|split].
  - unfold is_uint64; simpl; lia.
  - simpl; lia.
  - apply (nimTxToTx_value_wraps Stub.adapter (Stub.transfer (2 ^ 63))).
    + unfold is_uint64; simpl; lia.
    + simpl; lia.
Defined.

(** ** Unsupported operations *)

Section Unsupported.

Context {P : Platform}.

(** C3, amended.  Each unsupported operation returns a zero result and a
    non-nil error built from a text, and that error is the same whatever
    the receiver and the arguments.  The text contains "not supported" for
    seven of the operations; for the mempool resynchronization and the
    chain-info query it is "not implemented". *)
Theorem unsupported_operations_fail_with_fixed_text {F : Type}
  (b : NimiqRPC) (txid : string) (tx : option Tx) (blocks : Z)
  (conservative : bool) (onNewTxAddr : F) (address : string)
  (addrDesc : list byte) :
  let errs :=
    unsupported_errors b txid tx blocks conservative onNewTxAddr address
      addrDesc in
  (forall b' txid' tx' blocks' conservative' (onNewTxAddr' : F) address'
          addrDesc',
      unsupported_errors b' txid' tx' blocks' conservative' onNewTxAddr'
        address' addrDesc' = errs) /\
  Forall (fun e => exists msg, e = Some (ErrNew msg)) errs /\
  map matches_not_supported errs
    = [true; true; true; true; false; true; true; true; false] /\
  snd (ResyncMempool b onNewTxAddr) = Some (ErrNew "not implemented") /\
  snd (GetChainInfo b) = Some (ErrNew "not implemented") /\
  fst (GetTransactionForMempool b txid) = None /\
  fst (GetTransactionSpecific b tx) = [] /\
  fst (EstimateFee b blocks) = 0 /\
  fst (EstimateSmartFee b blocks conservative) = 0 /\
  fst (ResyncMempool b onNewTxAddr) = 0 /\
  fst (GetMempoolTransactions b address) = [] /\
  fst (GetMempoolTransactionsForAddrDesc b addrDesc) = [] /\
  fst (GetMempoolEntry b txid) = None /\
  fst (GetChainInfo b) = None.
Proof.
  cbv zeta. split; [reflexivity|]. split.
  - unfold unsupported_errors; cbn.
    repeat (constructor; [eexists; reflexivity|]). constructor.
  - split; [reflexivity|]. repeat split.
Qed.

(** C10.  Whatever its argument, the simple fee estimation fails with the
    text "GetMempoolEntry: not supported", the very error of the
    mempool-entry lookup; the text does not name [EstimateFee]. *)
Theorem EstimateFee_reports_GetMempoolEntry (b : NimiqRPC) (blocks : Z)
  (txid : string) :
  EstimateFee b blocks
    = (0, Some (ErrNew "GetMempoolEntry: not supported")) /\
  snd (EstimateFee b blocks) = snd (GetMempoolEntry b txid) /\
  Contains "GetMempoolEntry: not supported" "EstimateFee" = false /\
  Contains "GetMempoolEntry: not supported" "GetMempoolEntry" = true.
Proof. repeat split. Qed.

End Unsupported.

(** C3 (counterexample).  The error of the mempool resynchronization does
    not match "not supported": of the nine unsupported operations, not
    every one lets a caller match on that phrase. *)
Lemma unsupported_not_all_match_not_supported :
  matches_not_supported (snd (ResyncMempool Stub.adapter tt)) = false /\
  ~ Forall (fun e => matches_not_supported e = true)
      (unsupported_errors (P := Stub.platform) Stub.adapter "9f3c" None 6
         true tt "NQ15 MLJN 23YB 8FBM 61TN 7LYG 2212 LVBG 4V19" []).
Proof.
  split; [reflexivity|].
  intros H. unfold unsupported_errors in H.
  do 4 apply Forall_inv_tail in H.
  apply Forall_inv in H. discriminate H.
Qed.

(** ** Connector *)

Section ConnectorProperties.

Context {P : Platform}.

Lemma CallContext_run {T : Type} (c : Client)
  (ctx : context_Context)
  (unmarshal : list byte -> string + T) (result : T) (method : string)
  (args : list Arg) (w : World) :
  CallContext (Some c) ctx unmarshal result method args w
  = Some (match fst (rpc_roundtrip c ctx method args (node w)) with
          | inl msg => (result, Some (ErrRPC msg))
          | inr raw =>
              match unmarshal raw with
              | inl msg => (result, Some (ErrJSON msg))
              | inr v => (v, None)
              end
          end,
          after_call c ctx method args w).
Proof.
  unfold CallContext, after_call.
  destruct (rpc_roundtrip c ctx method args (node w)) as [[msg|raw] n]; cbn.
  - reflexivity.
  - destruct (unmarshal raw); reflexivity.
Qed.

(** An error handed back by [CallContext] is never one of the not-found
    sentinels. *)
Lemma CallContext_error_is_transport {T : Type} (c : option Client)
  (ctx : context_Context) (unmarshal : list byte -> string + T) (result : T)
  (method : string) (args : list Arg) (w w' : World) (v : T) (e : error) :
  CallContext c ctx unmarshal result method args w = Some ((v, Some e), w') ->
  is_transport e = true /\ is_not_found e = false.
Proof.
  destruct c as [c|]; [|discriminate].
  rewrite CallContext_run.
  destruct (fst (rpc_roundtrip c ctx method args (node w))) as [msg|raw].
  - intros [= <- <- <-]. now split.
  - destruct (unmarshal raw); intros [= <- <- <-] || intros [=]. now split.
Qed.

Lemma trace_after_call (c : Client) (ctx : context_Context)
  (method : string) (args : list Arg) (w : World) :
  trace (after_call c ctx method args w)
  = (trace w ++ [EvCall c ctx method args])%list.
Proof. reflexivity. Qed.

(** C6.  When the configuration document decodes and the endpoint can be
    dialled, construction succeeds, and the configuration it keeps has
    [BlockAddressesToKeep] equal to 100 if the configured value is below
    100 and equal to the configured value otherwise; the other settings are
    kept as configured. *)
Theorem NewNimiqRPC_floors_BlockAddressesToKeep {H : Type}
  (config : list byte) (pushHandler : H) (c : Configuration) (cl : Client)
  (n : NodeState) (w : World) :
  unmarshal_Configuration config = inr c ->
  rpc_Dial (Configuration_RPCURL c) (node w) = (inr cl, n) ->
  exists s w' c',
    NewNimiqRPC config pushHandler w = Some ((Some s, None), w') /\
    NimiqRPC_ChainConfig s = Some c' /\
    (Configuration_BlockAddressesToKeep c < 100 ->
     Configuration_BlockAddressesToKeep c' = 100) /\
    (100 <= Configuration_BlockAddressesToKeep c ->
     Configuration_BlockAddressesToKeep c'
     = Configuration_BlockAddressesToKeep c) /\
    Configuration_CoinName c' = Configuration_CoinName c /\
    Configuration_CoinShortcut c' = Configuration_CoinShortcut c /\
    Configuration_RPCURL c' = Configuration_RPCURL c /\
    Configuration_RPCTimeout c' = Configuration_RPCTimeout c.
Proof.
  intros Hcfg Hdial. unfold NewNimiqRPC. rewrite Hcfg.
  unfold bind, Dial.
  destruct (Z.ltb_spec (Configuration_BlockAddressesToKeep c) 100) as [Hlt|Hge];
    cbn [set_BlockAddressesToKeep Configuration_RPCURL];
    rewrite Hdial; cbn; do 3 eexists;
    (split; [reflexivity|]); (split; [reflexivity|]); cbn;
    repeat split; intros; try reflexivity; lia.
Qed.

(** A dial failure is handed back as it is, and no connector is built. *)
Lemma NewNimiqRPC_dial_failure {H : Type} (config : list byte)
  (pushHandler : H) (c : Configuration) (msg : string) (n : NodeState)
  (w : World) :
  unmarshal_Configuration config = inr c ->
  rpc_Dial (Configuration_RPCURL c) (node w) = (inl msg, n) ->
  exists w',
    NewNimiqRPC config pushHandler w = Some ((None, Some (ErrRPC msg)), w').
Proof.
  intros Hcfg Hdial. unfold NewNimiqRPC. rewrite Hcfg.
  unfold bind, Dial.
  destruct (Configuration_BlockAddressesToKeep c <? 100)%Z;
    cbn [set_BlockAddressesToKeep Configuration_RPCURL];
    rewrite Hdial; cbn; eexists; reflexivity.
Qed.

(** C8.  Shutdown returns no error in any state of the connector and of
    the world, hence also when called a second time; on a connector whose
    RPC handle was never opened it closes nothing and only writes its log
    line. *)
Theorem Shutdown_never_fails (b : NimiqRPC)
  (ctx ctx' : context_Context) (w : World) :
  (exists w1 w2,
      Shutdown b ctx w = Some (None, w1) /\
      Shutdown b ctx' w1 = Some (None, w2)) /\
  (forall bc t cfg,
      Shutdown {| NimiqRPC_BaseChain := bc;
                  NimiqRPC_rpc := None;
                  NimiqRPC_timeout := t;
                  NimiqRPC_ChainConfig := cfg |} ctx w
      = Some (None, record (EvLog "rpc: shutdown") w)).
Proof.
  split.
  - unfold Shutdown, bind.
    destruct (NimiqRPC_rpc b) as [c|]; cbn; do 2 eexists; split; reflexivity.
  - intros bc t cfg. reflexivity.
Qed.

(** What [GetBlock] does once its lookup is chosen, on a connector with an
    open client. *)
Lemma GetBlock_run (b : NimiqRPC) (c : Client) (hash : string) (height : Z)
  (w : World) :
  NimiqRPC_rpc b = Some c ->
  let ctx := context_WithTimeout (NimiqRPC_timeout b) in
  let method :=
    if (hash =? "")%string then "getBlockByNumber" else "getBlockByHash" in
  let args :=
    if (hash =? "")%string then [AUint32 height; ABool true]
    else [AString hash; ABool true] in
  let where_ := "hash " ++ hash ++ ", height " ++ fmt_uint height in
  GetBlock b hash height w
  = Some (match fst (rpc_roundtrip c ctx method args (node w)) with
          | inl msg => (None, Some (ErrRPC msg))
          | inr raw =>
              match unmarshal_rpcHeader raw, unmarshal_rpcBlock raw with
              | inl msg, _ => (None, Some (ErrAnnotate (ErrJSON msg) where_))
              | inr _, inl msg =>
                  (None, Some (ErrAnnotate (ErrJSON msg) where_))
              | inr head, inr body =>
                  (Some {| Block_BlockHeader := nimHeaderToBlockHeader b head;
                           Block_Txs :=
                             map (nimTxToTx b) (rpcBlock_Txs body) |},
                   None)
              end
          end,
          after_call c ctx method args w).
Proof.
  intros Hrpc. cbv zeta. unfold GetBlock, bind. rewrite Hrpc.
  destruct (hash =? "")%string; cbn [negb]; rewrite CallContext_run;
    unfold unmarshal_RawMessage;
    match goal with
    | |- context [fst (rpc_roundtrip ?c ?t ?m ?a ?n)] =>
        destruct (fst (rpc_roundtrip c t m a n)) as [msg|raw]
    end; try reflexivity;
    destruct (unmarshal_rpcHeader raw); try reflexivity;
    destruct (unmarshal_rpcBlock raw); reflexivity.
Qed.

(** C4.  On a connector with an open client the full-block fetch issues
    exactly one call.  With a non-empty hash it is the lookup by hash,
    whatever the height: any other height gives the same world and the same
    block, and fails in the same cases.  The lookup by height is issued
    when the hash is empty, and only then. *)
Theorem GetBlock_hash_has_precedence (b : NimiqRPC) (c : Client)
  (hash : string) (height : Z) (w : World) :
  NimiqRPC_rpc b = Some c ->
  let ctx := context_WithTimeout (NimiqRPC_timeout b) in
  let byHash := EvCall c ctx "getBlockByHash" [AString hash; ABool true] in
  let byNumber :=
    EvCall c ctx "getBlockByNumber" [AUint32 height; ABool true] in
  exists res w',
    GetBlock b hash height w = Some (res, w') /\
    (hash <> "" ->
     trace w' = (trace w ++ [byHash])%list /\
     forall height',
     exists res',
       GetBlock b hash height' w = Some (res', w') /\
       fst res' = fst res /\
       (snd res' = None <-> snd res = None)) /\
    (hash = "" -> trace w' = (trace w ++ [byNumber])%list) /\
    (trace w' = (trace w ++ [byNumber])%list -> hash = "").
Proof.
  intros Hrpc. cbv zeta.
  do 2 eexists. split; [apply (GetBlock_run b c hash height w Hrpc)|].
  destruct (String.eqb_spec hash "") as [He|Hne].
  - split; [intros Hn; contradiction|].
    split; [intros _; apply trace_after_call | intros _; exact He].
  - split; [intros _; split; [apply trace_after_call|] |].
    + intros height'. eexists.
      split; [rewrite (GetBlock_run b c hash height' w Hrpc)|].
      * destruct (String.eqb_spec hash "") as [He|_]; [contradiction|].
        reflexivity.
      * destruct (String.eqb_spec hash "") as [He|_]; [contradiction|].
        destruct (fst (rpc_roundtrip c
                         (context_WithTimeout (NimiqRPC_timeout b))
                         "getBlockByHash"
                         [AString hash; ABool true] (node w))) as [msg|raw];
          [split; [reflexivity | split; intros E; exact E]|].
        destruct (unmarshal_rpcHeader raw);
          [split; [reflexivity | split; discriminate]|].
        destruct (unmarshal_rpcBlock raw);
          [split; [reflexivity | split; discriminate]|].
        split; [reflexivity | split; intros E; exact E].
    + split; [intros He; contradiction|].
      rewrite trace_after_call. intros E.
      apply app_inv_head in E. discriminate E.
Qed.

(** Closes a goal about one header-or-transaction lookup whose call came
    back with a nil pointer. *)
Ltac null_lookup Hrpc Hnull :=
  destruct Hnull as (raw & Hraw & Hdec);
  unfold bind; rewrite Hrpc, CallContext_run, Hraw, Hdec;
  eexists; reflexivity.

(** A lookup that hands back no error hands back a result. *)
Ltac never_nil_success Hrpc :=
  unfold bind; rewrite Hrpc, CallContext_run;
  match goal with
  | |- context [fst (rpc_roundtrip ?c ?t ?m ?a ?n)] =>
      destruct (fst (rpc_roundtrip c t m a n)) as [msg|raw]
  end;
  [ intros [= <- _]; discriminate
  | match goal with
    | |- context [match ?u ?r with inl _ => _ | inr _ => _ end] =>
        destruct (u r) as [msg|[v|]]
    end; intros [= <- _]; discriminate ].

(** C5.  On a connector with an open client: when the node answers the
    lookup of a transaction by id, of a block header by hash, of a block
    hash by height or of the best block hash with a null result, the
    operation returns the not-found error of its kind, which is not an
    error of the RPC layer; and neither pointer-valued lookup ever returns
    a nil result with a nil error. *)
Theorem null_result_is_not_found (b : NimiqRPC) (c : Client) (w : World) :
  NimiqRPC_rpc b = Some c ->
  let ctx := context_WithTimeout (NimiqRPC_timeout b) in
  (forall txid,
      returns_null unmarshal_ptr_rpcTx c ctx "getTransactionByHash"
        [AString txid] w ->
      exists w',
        GetTransaction b txid w = Some ((None, Some ErrTxNotFound), w')) /\
  (forall hash,
      returns_null unmarshal_ptr_rpcHeader c ctx "getBlockByHash"
        [AString hash] w ->
      exists w',
        GetBlockHeader b hash w = Some ((None, Some ErrBlockNotFound), w')) /\
  (forall height,
      returns_null unmarshal_ptr_rpcHeader c ctx "getBlockByNumber"
        [AUint32 height] w ->
      exists w',
        GetBlockHash b height w = Some (("", Some ErrBlockNotFound), w')) /\
  (forall headNum w1,
      GetBestBlockHeight b w = Some ((headNum, None), w1) ->
      returns_null unmarshal_ptr_rpcHeader c ctx "getBlockByNumber"
        [AUint32 headNum] w1 ->
      exists w',
        GetBestBlockHash b w = Some (("", Some ErrBlockNotFound), w')) /\
  is_transport ErrTxNotFound = false /\
  is_transport ErrBlockNotFound = false /\
  (forall txid res w',
      GetTransaction b txid w = Some (res, w') -> res <> (None, None)) /\
  (forall hash res w',
      GetBlockHeader b hash w = Some (res, w') -> res <> (None, None)).
Proof.
  intros Hrpc. cbv zeta.
  split; [intros txid Hnull; unfold GetTransaction; null_lookup Hrpc Hnull|].
  split; [intros hash Hnull; unfold GetBlockHeader; null_lookup Hrpc Hnull|].
  split; [intros height Hnull; unfold GetBlockHash; null_lookup Hrpc Hnull|].
  split.
  { intros headNum w1 Hbest Hnull. unfold GetBestBlockHash.
    unfold bind at 1. rewrite Hbest. null_lookup Hrpc Hnull. }
  split; [reflexivity|]. split; [reflexivity|].
  split.
  - intros txid res w'. unfold GetTransaction. never_nil_success Hrpc.
  - intros hash res w'. unfold GetBlockHeader. never_nil_success Hrpc.
Qed.

(** C7.  Take a connector with an open client and a non-empty hash, and
    let the node answer the full-block request and the summary request for
    that hash with payloads that decode to the same wire header.  When both
    fetches succeed, their canonical headers agree on hash, parent hash,
    height, size and time: each is the image of that wire header under
    [nimHeaderToBlockHeader]. *)
Theorem full_block_and_summary_headers_agree (b : NimiqRPC) (c : Client)
  (hash : string) (height : Z) (w1 w2 w1' w2' : World)
  (rawFull rawLight : list byte) (bk : Block) (bi : BlockInfo) :
  NimiqRPC_rpc b = Some c ->
  hash <> "" ->
  returns_payload c (context_WithTimeout (NimiqRPC_timeout b))
    "getBlockByHash"
    [AString hash; ABool true] w1 rawFull ->
  returns_payload c (context_WithTimeout (NimiqRPC_timeout b))
    "getBlockByHash"
    [AString hash; ABool false] w2 rawLight ->
  unmarshal_rpcHeader rawFull = unmarshal_rpcHeader rawLight ->
  GetBlock b hash height w1 = Some ((Some bk, None), w1') ->
  GetBlockInfo b hash w2 = Some ((Some bi, None), w2') ->
  let hf := Block_BlockHeader bk in
  let hl := BlockInfo_BlockHeader bi in
  (exists head,
      unmarshal_rpcHeader rawFull = inr head /\
      hf = nimHeaderToBlockHeader b head /\
      hl = nimHeaderToBlockHeader b head) /\
  BlockHeader_Hash hf = BlockHeader_Hash hl /\
  BlockHeader_Prev hf = BlockHeader_Prev hl /\
  BlockHeader_Height hf = BlockHeader_Height hl /\
  BlockHeader_Size hf = BlockHeader_Size hl /\
  BlockHeader_Time hf = BlockHeader_Time hl.
Proof.
  intros Hrpc Hne HrawF HrawL Hsame Hfull Hlight. cbv zeta.
  unfold returns_payload in HrawF, HrawL.
  rewrite (GetBlock_run b c hash height w1 Hrpc) in Hfull.
  destruct (String.eqb_spec hash "") as [He|_]; [contradiction|].
  rewrite HrawF in Hfull.
  unfold GetBlockInfo, bind in Hlight.
  rewrite Hrpc, CallContext_run, HrawL in Hlight.
  unfold unmarshal_RawMessage in Hlight.
  rewrite <- Hsame in Hlight.
  destruct (unmarshal_rpcHeader rawFull) as [msg|head]; [discriminate|].
  destruct (unmarshal_rpcBlock rawFull) as [msg|body]; [discriminate|].
  destruct (unmarshal_rpcLightBlock rawLight) as [msg|light]; [discriminate|].
  injection Hfull as <- _. injection Hlight as <- _. cbn.
  split; [exists head; repeat split|]. repeat split.
Qed.

(** C1.  Let the three genesis hashes of the table be distinct, and let
    the fetch of the block at height 1 hand back a block.  Then the outcome
    of initialization is decided by the hash [h] of that block alone.  For
    the main hash the connector returned has the testnet flag off and the
    label "mainnet", for the test hash the flag on and the label "testnet",
    for the dev hash the flag on and the label "devnet"; in each case no
    error is returned, the line "rpc: block chain" with the label is
    logged, and parser, client handle, timeout and configuration are what
    they were.  For any other hash the error "Unknown network genesis h"
    is returned, the connector is left as it was and nothing is logged. *)
Theorem Initialize_classifies_by_genesis_hash (b : NimiqRPC)
  (bc : BaseChain) (w w1 : World) (genesis : Block) :
  networks_MainNet_Hash <> networks_TestNet_Hash ->
  networks_MainNet_Hash <> networks_DevNet_Hash ->
  networks_TestNet_Hash <> networks_DevNet_Hash ->
  NimiqRPC_BaseChain b = Some bc ->
  GetBlock b "" 1 w = Some ((Some genesis, None), w1) ->
  let h := BlockHeader_Hash (Block_BlockHeader genesis) in
  let classified (testnet : bool) (network : string) : NimiqRPC :=
    {| NimiqRPC_BaseChain :=
         Some {| BaseChain_Parser := BaseChain_Parser bc;
                 BaseChain_Testnet := testnet;
                 BaseChain_Network := network |};
       NimiqRPC_rpc := NimiqRPC_rpc b;
       NimiqRPC_timeout := NimiqRPC_timeout b;
       NimiqRPC_ChainConfig := NimiqRPC_ChainConfig b |} in
  (h = EncodeToString networks_MainNet_Hash ->
   Initialize b w
   = Some ((classified false "mainnet", None),
           record (EvLog "rpc: block chain mainnet") w1)) /\
  (h = EncodeToString networks_TestNet_Hash ->
   Initialize b w
   = Some ((classified true "testnet", None),
           record (EvLog "rpc: block chain testnet") w1)) /\
  (h = EncodeToString networks_DevNet_Hash ->
   Initialize b w
   = Some ((classified true "devnet", None),
           record (EvLog "rpc: block chain devnet") w1)) /\
  (h <> EncodeToString networks_MainNet_Hash ->
   h <> EncodeToString networks_TestNet_Hash ->
   h <> EncodeToString networks_DevNet_Hash ->
   Initialize b w
   = Some ((b, Some (ErrNew ("Unknown network genesis " ++ h))), w1)).
Proof.
  intros Hmt Hmd Htd Hbc Hget. cbv zeta.
  assert (Emt : EncodeToString networks_MainNet_Hash
                <> EncodeToString networks_TestNet_Hash)
    by (intros E; apply Hmt, EncodeToString_inj, E).
  assert (Emd : EncodeToString networks_MainNet_Hash
                <> EncodeToString networks_DevNet_Hash)
    by (intros E; apply Hmd, EncodeToString_inj, E).
  assert (Etd : EncodeToString networks_TestNet_Hash
                <> EncodeToString networks_DevNet_Hash)
    by (intros E; apply Htd, EncodeToString_inj, E).
  repeat split.
  - intros E. unfold Initialize. unfold bind at 1.
    rewrite Hget. cbv beta iota zeta. rewrite E, String.eqb_refl.
    unfold assign_network, bind. rewrite Hbc. reflexivity.
  - intros E. unfold Initialize. unfold bind at 1.
    rewrite Hget. cbv beta iota zeta. rewrite E.
    rewrite (proj2 (String.eqb_neq _ _))
      by (intros E'; apply Emt; now symmetry).
    rewrite String.eqb_refl.
    unfold assign_network, bind. rewrite Hbc. reflexivity.
  - intros E. unfold Initialize. unfold bind at 1.
    rewrite Hget. cbv beta iota zeta. rewrite E.
    rewrite (proj2 (String.eqb_neq _ _))
      by (intros E'; apply Emd; now symmetry).
    rewrite (proj2 (String.eqb_neq _ _))
      by (intros E'; apply Etd; now symmetry).
    rewrite String.eqb_refl.
    unfold assign_network, bind. rewrite Hbc. reflexivity.
  - intros N1 N2 N3. unfold Initialize. unfold bind at 1.
    rewrite Hget. cbv beta iota zeta.
    rewrite (proj2 (String.eqb_neq _ _) N1).
    rewrite (proj2 (String.eqb_neq _ _) N2).
    rewrite (proj2 (String.eqb_neq _ _) N3).
    reflexivity.
Qed.

End ConnectorProperties.

(** ** The theorems at work on the stub platform *)

Lemma NewNimiqRPC_floors_BlockAddressesToKeep_witness :
  exists s w' c',
    Stub.config_of [x0a] = inr c' /\
    NewNimiqRPC (P := Stub.platform) [x0a] tt (Stub.world [])
    = Some ((Some s, None), w') /\
    NimiqRPC_ChainConfig s
    = Some (set_BlockAddressesToKeep c' 100).
Proof.
  destruct (NewNimiqRPC_floors_BlockAddressesToKeep (P := Stub.platform)
              [x0a] tt _ (ClientHandle 0) [] (Stub.world [])
              eq_refl eq_refl)
    as (s & w' & c' & Hnew & Hcfg & Hlow & _).
  exists s, w'. eexists. split; [reflexivity|]. split; [exact Hnew|].
  rewrite Hcfg. f_equal.
  injection Hnew as <- _. injection Hcfg as <-. reflexivity.
Defined.

Lemma GetBlock_hash_has_precedence_witness :
  NimiqRPC_rpc Stub.adapter = Some (ClientHandle 0) /\
  exists res w',
    GetBlock (P := Stub.platform) Stub.adapter "ab" 5 (Stub.world [])
    = Some (res, w') /\
    trace w'
    = [EvCall (ClientHandle 0) 25000000000 "getBlockByHash"
         [AString "ab"; ABool true]] /\
    forall height',
    exists res',
      GetBlock (P := Stub.platform) Stub.adapter "ab" height' (Stub.world [])
      = Some (res', w') /\
      fst res' = fst res.
Proof.
  split; [reflexivity|].
  destruct (GetBlock_hash_has_precedence (P := Stub.platform) Stub.adapter
              (ClientHandle 0) "ab" 5 (Stub.world []) eq_refl)
    as (res & w' & Hrun & Hhash & _).
  destruct Hhash as [Htrace Hany]; [discriminate|].
  exists res, w'. split; [exact Hrun|]. split; [exact Htrace|].
  intros height'. destruct (Hany height') as (res' & Hrun' & Hfst & _).
  exists res'. split; [exact Hrun' | exact Hfst].
Defined.

Lemma null_result_is_not_found_witness :
  NimiqRPC_rpc Stub.adapter = Some (ClientHandle 0) /\
  (exists w',
      GetTransaction (P := Stub.platform) Stub.adapter "9f3c" (Stub.world [])
      = Some ((None, Some ErrTxNotFound), w')) /\
  (exists w',
      GetBlockHeader (P := Stub.platform) Stub.adapter "264a" (Stub.world [])
      = Some ((None, Some ErrBlockNotFound), w')) /\
  (exists w',
      GetBlockHash (P := Stub.platform) Stub.adapter 9 (Stub.world [])
      = Some (("", Some ErrBlockNotFound), w')) /\
  (exists w',
      GetBestBlockHash (P := Stub.platform) Stub.adapter (Stub.world [])
      = Some (("", Some ErrBlockNotFound), w')).
Proof.
  split; [reflexivity|].
  destruct (null_result_is_not_found (P := Stub.platform) Stub.adapter
              (ClientHandle 0) (Stub.world []) eq_refl)
    as (Htx & Hheader & Hhash & Hbest & _).
  split; [apply Htx; exists []; split; reflexivity|].
  split; [apply Hheader; exists []; split; reflexivity|].
  split; [apply Hhash; exists []; split; reflexivity|].
  eapply Hbest; [reflexivity|]. exists []. split; reflexivity.
Defined.

Lemma full_block_and_summary_headers_agree_witness :
  exists bk bi w1' w2',
    GetBlock (P := Stub.platform) Stub.adapter "ab" 5 (Stub.world [])
    = Some ((Some bk, None), w1') /\
    GetBlockInfo (P := Stub.platform) Stub.adapter "ab" (Stub.world [])
    = Some ((Some bi, None), w2') /\
    BlockHeader_Hash (Block_BlockHeader bk) = "6162" /\
    BlockHeader_Hash (Block_BlockHeader bk)
    = BlockHeader_Hash (BlockInfo_BlockHeader bi) /\
    BlockHeader_Height (Block_BlockHeader bk)
    = BlockHeader_Height (BlockInfo_BlockHeader bi).
Proof.
  do 4 eexists.
  split; [lazy; reflexivity|]. split; [lazy; reflexivity|].
  split; [reflexivity|].
  pose proof (full_block_and_summary_headers_agree (P := Stub.platform)
                Stub.adapter (ClientHandle 0) "ab" 5
                (Stub.world []) (Stub.world []) _ _
                (list_byte_of_string "ab") (list_byte_of_string "ab") _ _
                eq_refl ltac:(discriminate) eq_refl eq_refl eq_refl
                eq_refl eq_refl)
    as (_ & Hhash & _ & Hheight & _).
  split; [exact Hhash | exact Hheight].
Defined.

Lemma Initialize_classifies_by_genesis_hash_witness :
  let flag_and_label (r : option ((NimiqRPC * option error) * World)) :=
    option_map
      (fun x =>
         (option_map (fun bc => (BaseChain_Testnet bc, BaseChain_Network bc))
            (NimiqRPC_BaseChain (fst (fst x))),
          snd (fst x))) r in
  flag_and_label
    (Initialize (P := Stub.platform) Stub.adapter
       (Stub.world Stub.main_hash))
  = Some (Some (false, "mainnet"), None) /\
  flag_and_label
    (Initialize (P := Stub.platform) Stub.adapter
       (Stub.world Stub.test_hash))
  = Some (Some (true, "testnet"), None) /\
  flag_and_label
    (Initialize (P := Stub.platform) Stub.adapter
       (Stub.world Stub.dev_hash))
  = Some (Some (true, "devnet"), None) /\
  option_map fst
    (Initialize (P := Stub.platform) Stub.adapter
       (Stub.world Stub.other_hash))
  = Some (Stub.adapter,
          Some (ErrNew ("Unknown network genesis "
                        ++ EncodeToString Stub.other_hash))).
Proof.
  cbv zeta.
  assert (Hmt : Stub.main_hash <> Stub.test_hash) by discriminate.
  assert (Hmd : Stub.main_hash <> Stub.dev_hash) by discriminate.
  assert (Htd : Stub.test_hash <> Stub.dev_hash) by discriminate.
  pose proof (fun genesis =>
                Initialize_classifies_by_genesis_hash (P := Stub.platform)
                  Stub.adapter BaseChain_zero (Stub.world genesis) _ _
                  Hmt Hmd Htd eq_refl eq_refl) as Hinit.
  split; [|split; [|split]].
  - destruct (Hinit Stub.main_hash) as (Hmain & _).
    rewrite Hmain; reflexivity.
  - destruct (Hinit Stub.test_hash) as (_ & Htest & _).
    rewrite Htest; reflexivity.
  - destruct (Hinit Stub.dev_hash) as (_ & _ & Hdev & _).
    rewrite Hdev; reflexivity.
  - destruct (Hinit Stub.other_hash) as (_ & _ & _ & Hother).
    rewrite Hother; try reflexivity; discriminate.
Defined.

(** * Further properties of the translator *)

Lemma to_int64_range (v : Z) : is_int64 (to_int64 v).
Proof.
  unfold is_int64, to_int64.
  pose proof (Z.mod_pos_bound (v + 2 ^ 63) (2 ^ 64) ltac:(lia)). lia.
Qed.

Lemma to_int64_inj_uint64 (u v : Z) :
  is_uint64 u -> is_uint64 v -> to_int64 u = to_int64 v -> u = v.
Proof.
  unfold is_uint64. intros Hu Hv E.
  destruct (Z_lt_ge_dec u (2 ^ 63)) as [Hus|Hul];
    destruct (Z_lt_ge_dec v (2 ^ 63)) as [Hvs|Hvl].
  - rewrite !to_int64_small in E by lia. exact E.
  - rewrite (to_int64_small u), (to_int64_large v) in E by lia. lia.
  - rewrite (to_int64_large u), (to_int64_small v) in E by lia. lia.
  - rewrite !to_int64_large in E by lia. lia.
Qed.

(** X1.  The canonical transaction keeps exactly four fields of the wire
    transaction: for wire values within [uint64], two wire transactions
    are mapped to the same canonical transaction if and only if they have
    the same hash, sender, recipient and value.  Fee, timestamp,
    confirmations, block hash and the user-friendly addresses never reach
    the canonical transaction, and the wrap of the value through [int64]
    merges no two wire values. *)
Theorem nimTxToTx_keeps_hash_parties_value (b b' : NimiqRPC)
  (t1 t2 : rpcTx) :
  is_uint64 (rpcTx_Value t1) ->
  is_uint64 (rpcTx_Value t2) ->
  nimTxToTx b t1 = nimTxToTx b' t2 <->
  rpcTx_Hash t1 = rpcTx_Hash t2 /\
  rpcTx_From t1 = rpcTx_From t2 /\
  rpcTx_To t1 = rpcTx_To t2 /\
  rpcTx_Value t1 = rpcTx_Value t2.
Proof.
  intros H1 H2. unfold nimTxToTx. split.
  - intros [= Eh Ef Ev Et].
    repeat split; auto using to_int64_inj_uint64.
  - intros (-> & -> & -> & ->). reflexivity.
Qed.

Lemma nimTxToTx_keeps_hash_parties_value_witness :
  nimTxToTx Stub.adapter (Stub.transfer 700)
  = nimTxToTx Scripted.adapter
      {| rpcTx_Hash := "9f3c";
         rpcTx_BlockHash := "";
         rpcTx_Timestamp := 0;
         rpcTx_Confirmations := 0;
         rpcTx_TransactionIndex := 7;
         rpcTx_From := "ad25610feb43d75307763d3f010822a757027429";
         rpcTx_FromAddress := "";
         rpcTx_To := "824aa01033c89595479bab9d8deb3fc3a3e65e2d";
         rpcTx_ToAddress := "";
         rpcTx_Value := 700;
         rpcTx_Fee := 0 |} /\
  nimTxToTx Stub.adapter (Stub.transfer 700)
  <> nimTxToTx Stub.adapter (Stub.transfer (2 ^ 63 + 700)).
Proof.
  split.
  - apply nimTxToTx_keeps_hash_parties_value;
      [unfold is_uint64; simpl; lia | unfold is_uint64; simpl; lia |].
    repeat split.
  - intros E.
    apply (nimTxToTx_keeps_hash_parties_value Stub.adapter Stub.adapter
             (Stub.transfer 700) (Stub.transfer (2 ^ 63 + 700))) in E;
      [| unfold is_uint64; simpl; lia | unfold is_uint64; simpl; lia].
    destruct E as (_ & _ & _ & Ev). simpl in Ev. lia.
Defined.

(** X2.  The header mapping narrows without checking.  The canonical
    height always lies within [uint32] and the canonical size within
    [int]; they equal the wire number and size when those already fit
    (number in [0, 2^32), size below 2^63).  A wire number outside
    [uint32] is reduced modulo 2^32, so a negative number just below zero
    becomes a height just below 2^32, and a size of 2^63 or more comes out
    negative.  Hash, parent hash and time are copied. *)
Theorem nimHeaderToBlockHeader_narrows (b : NimiqRPC) (h : rpcHeader) :
  let r := nimHeaderToBlockHeader b h in
  is_uint32 (BlockHeader_Height r) /\
  is_int64 (BlockHeader_Size r) /\
  (BlockHeader_Height r - rpcHeader_Number h) mod 2 ^ 32 = 0 /\
  (is_uint32 (rpcHeader_Number h) ->
   BlockHeader_Height r = rpcHeader_Number h) /\
  (- 2 ^ 32 <= rpcHeader_Number h < 0 ->
   BlockHeader_Height r = rpcHeader_Number h + 2 ^ 32) /\
  (0 <= rpcHeader_Size h < 2 ^ 63 ->
   BlockHeader_Size r = rpcHeader_Size h) /\
  (2 ^ 63 <= rpcHeader_Size h < 2 ^ 64 ->
   BlockHeader_Size r = rpcHeader_Size h - 2 ^ 64 /\
   BlockHeader_Size r < 0) /\
  BlockHeader_Hash r = rpcHeader_Hash h /\
  BlockHeader_Prev r = rpcHeader_ParentHash h /\
  BlockHeader_Time r = rpcHeader_Time h.
Proof.
  cbv zeta. cbn [nimHeaderToBlockHeader BlockHeader_Height BlockHeader_Size
                 BlockHeader_Hash BlockHeader_Prev BlockHeader_Time].
  unfold to_int, to_uint32, is_uint32.
  split; [apply Z.mod_pos_bound; lia|].
  split; [apply to_int64_range|].
  split.
  { rewrite Zminus_mod_idemp_l, Z.sub_diag. reflexivity. }
  split; [intros Hn; apply Z.mod_small; exact Hn|].
  split.
  { intros Hn.
    replace (rpcHeader_Number h)
      with (rpcHeader_Number h + 2 ^ 32 + (-1) * 2 ^ 32) at 1 by lia.
    rewrite Z_mod_plus_full. apply Z.mod_small. lia. }
  split; [intros Hs; apply to_int64_small; exact Hs|].
  split; [|repeat split].
  intros Hs. rewrite to_int64_large by exact Hs. lia.
Qed.

Lemma nimHeaderToBlockHeader_narrows_witness :
  BlockHeader_Height
    (nimHeaderToBlockHeader Stub.adapter
       (Stub.header_of [x01; x02; x03])) = 3 /\
  BlockHeader_Size
    (nimHeaderToBlockHeader Stub.adapter
       (Stub.header_of [x01; x02; x03])) = 0.
Proof.
  destruct (nimHeaderToBlockHeader_narrows Stub.adapter
              (Stub.header_of [x01; x02; x03]))
    as (_ & _ & _ & Hheight & _ & Hsize & _).
  split.
  - rewrite Hheight; [reflexivity | unfold is_uint32; simpl; lia].
  - rewrite Hsize; [reflexivity | simpl; lia].
Defined.

(** * Further properties of the connector *)

Section ConnectorFurther.

Context {P : Platform}.

(** Runs one lookup on an open client and splits on what came back. *)
Ltac run_call Hrpc :=
  unfold bind; rewrite Hrpc, CallContext_run;
  try unfold unmarshal_RawMessage;
  match goal with
  | |- context [fst (rpc_roundtrip ?c ?t ?m ?a ?n)] =>
      destruct (fst (rpc_roundtrip c t m a n)) as [?msg|?raw]
  end.

Ltac split_decoding :=
  repeat match goal with
         | |- context [match ?u ?r with inl _ => _ | inr _ => _ end] =>
             destruct (u r) as [?msg|?v]
         end.

Ltac done_call :=
  first [ eexists; reflexivity
        | match goal with
          | v : option _ |- _ => destruct v; eexists; reflexivity
          end ].

(** X3.  On a connector with an open client every lookup issues exactly
    one request, under the configured timeout, and leaves the world that
    request leaves, whether it succeeds or fails: [blockNumber] for the
    best height, [getBlockByNumber(height)] for the hash at a height,
    [getBlockByHash(hash)] for a header, [getBlockByHash(hash, false)] for
    the summary, [getTransactionByHash(txid)] for a transaction,
    [mempoolContent(false)] for the mempool and [sendRawTransaction(hex)]
    for a submission. *)
Theorem each_lookup_issues_one_request (b : NimiqRPC) (c : Client)
  (w : World) :
  NimiqRPC_rpc b = Some c ->
  let ctx := context_WithTimeout (NimiqRPC_timeout b) in
  (exists r,
      GetBestBlockHeight b w
      = Some (r, after_call c ctx "blockNumber" [] w)) /\
  (forall height,
    exists r,
      GetBlockHash b height w
      = Some (r, after_call c ctx "getBlockByNumber" [AUint32 height] w)) /\
  (forall hash,
    exists r,
      GetBlockHeader b hash w
      = Some (r, after_call c ctx "getBlockByHash" [AString hash] w)) /\
  (forall hash,
    exists r,
      GetBlockInfo b hash w
      = Some (r, after_call c ctx "getBlockByHash"
                   [AString hash; ABool false] w)) /\
  (forall txid,
    exists r,
      GetTransaction b txid w
      = Some (r, after_call c ctx "getTransactionByHash"
                   [AString txid] w)) /\
  (exists r,
      GetMempool b w
      = Some (r, after_call c ctx "mempoolContent" [ABool false] w)) /\
  (forall hex,
    exists r,
      SendRawTransaction b hex w
      = Some (r, after_call c ctx "sendRawTransaction" [AString hex] w)).
Proof.
  intros Hrpc. cbv zeta.
  split; [unfold GetBestBlockHeight|].
  2: split; [intros height; unfold GetBlockHash|].
  3: split; [intros hash; unfold GetBlockHeader|].
  4: split; [intros hash; unfold GetBlockInfo|].
  5: split; [intros txid; unfold GetTransaction|].
  6: split; [unfold GetMempool | intros hex; unfold SendRawTransaction].
  all: run_call Hrpc; [eexists; reflexivity|]; split_decoding; done_call.
Qed.

(** X4.  A request that fails in the RPC layer is handed to the caller as
    it is, with the zero result of the operation: the error is neither
    wrapped nor replaced, for the best height (0), the hash at a height
    (the empty string), a header, a full block, a summary, a transaction
    (nil), the mempool (no ids) and a submission (the empty string). *)
Theorem request_failure_is_passed_through (b : NimiqRPC) (c : Client)
  (w : World) (msg : string) :
  NimiqRPC_rpc b = Some c ->
  let ctx := context_WithTimeout (NimiqRPC_timeout b) in
  let fails method args :=
    fst (rpc_roundtrip c ctx method args (node w)) = inl msg in
  (fails "blockNumber" [] ->
   option_map fst (GetBestBlockHeight b w) = Some (0, Some (ErrRPC msg))) /\
  (forall height,
      fails "getBlockByNumber" [AUint32 height] ->
      option_map fst (GetBlockHash b height w)
      = Some ("", Some (ErrRPC msg))) /\
  (forall hash,
      fails "getBlockByHash" [AString hash] ->
      option_map fst (GetBlockHeader b hash w)
      = Some (None, Some (ErrRPC msg))) /\
  (forall hash height,
      hash <> "" ->
      fails "getBlockByHash" [AString hash; ABool true] ->
      option_map fst (GetBlock b hash height w)
      = Some (None, Some (ErrRPC msg))) /\
  (forall height,
      fails "getBlockByNumber" [AUint32 height; ABool true] ->
      option_map fst (GetBlock b "" height w)
      = Some (None, Some (ErrRPC msg))) /\
  (forall hash,
      fails "getBlockByHash" [AString hash; ABool false] ->
      option_map fst (GetBlockInfo b hash w)
      = Some (None, Some (ErrRPC msg))) /\
  (forall txid,
      fails "getTransactionByHash" [AString txid] ->
      option_map fst (GetTransaction b txid w)
      = Some (None, Some (ErrRPC msg))) /\
  (fails "mempoolContent" [ABool false] ->
   option_map fst (GetMempool b w) = Some ([], Some (ErrRPC msg))) /\
  (forall hex,
      fails "sendRawTransaction" [AString hex] ->
      option_map fst (SendRawTransaction b hex w)
      = Some ("", Some (ErrRPC msg))).
Proof.
  intros Hrpc. cbv zeta.
  split; [intros Hf; unfold GetBestBlockHeight|].
  2: split; [intros height Hf; unfold GetBlockHash|].
  3: split; [intros hash Hf; unfold GetBlockHeader|].
  4: split; [intros hash height Hne Hf|].
  5: split; [intros height Hf|].
  6: split; [intros hash Hf; unfold GetBlockInfo|].
  7: split; [intros txid Hf; unfold GetTransaction|].
  8: split; [intros Hf; unfold GetMempool
            | intros hex Hf; unfold SendRawTransaction].
  4: { rewrite (GetBlock_run b c hash height w Hrpc).
       destruct (String.eqb_spec hash "") as [He|_]; [contradiction|].
       rewrite Hf. reflexivity. }
  4: { rewrite (GetBlock_run b c "" height w Hrpc). cbn [String.eqb].
       rewrite Hf. reflexivity. }
  all: unfold bind; rewrite Hrpc, CallContext_run, Hf; reflexivity.
Qed.

(** X5.  A payload that does not decode is reported with the request
    written into the error.  In the full-block fetch a failure to decode
    the header, or the transaction list after the header decoded, is
    annotated with "hash H, height N": both arguments as given, so the
    height shows even when the lookup went by hash and the hash is empty
    when it went by height.  In the summary fetch the annotation is
    "hash H".  A decoding failure inside a typed lookup (header or
    transaction by hash) is returned without annotation. *)
Theorem malformed_payload_is_annotated (b : NimiqRPC) (c : Client)
  (w : World) (raw : list byte) (msg : string) :
  NimiqRPC_rpc b = Some c ->
  let ctx := context_WithTimeout (NimiqRPC_timeout b) in
  let malformed_block :=
    unmarshal_rpcHeader raw = inl msg \/
    ((exists head, unmarshal_rpcHeader raw = inr head) /\
     unmarshal_rpcBlock raw = inl msg) in
  let malformed_summary :=
    unmarshal_rpcHeader raw = inl msg \/
    ((exists head, unmarshal_rpcHeader raw = inr head) /\
     unmarshal_rpcLightBlock raw = inl msg) in
  (forall hash height,
      hash <> "" ->
      returns_payload c ctx "getBlockByHash" [AString hash; ABool true]
        w raw ->
      malformed_block ->
      option_map fst (GetBlock b hash height w)
      = Some (None,
              Some (ErrAnnotate (ErrJSON msg)
                      ("hash " ++ hash ++ ", height " ++ fmt_uint height)))) /\
  (forall height,
      returns_payload c ctx "getBlockByNumber" [AUint32 height; ABool true]
        w raw ->
      malformed_block ->
      option_map fst (GetBlock b "" height w)
      = Some (None,
              Some (ErrAnnotate (ErrJSON msg)
                      ("hash , height " ++ fmt_uint height)))) /\
  (forall hash,
      returns_payload c ctx "getBlockByHash" [AString hash; ABool false]
        w raw ->
      malformed_summary ->
      option_map fst (GetBlockInfo b hash w)
      = Some (None, Some (ErrAnnotate (ErrJSON msg) ("hash " ++ hash)))) /\
  (forall hash,
      returns_payload c ctx "getBlockByHash" [AString hash] w raw ->
      unmarshal_ptr_rpcHeader raw = inl msg ->
      option_map fst (GetBlockHeader b hash w)
      = Some (None, Some (ErrJSON msg))) /\
  (forall txid,
      returns_payload c ctx "getTransactionByHash" [AString txid] w raw ->
      unmarshal_ptr_rpcTx raw = inl msg ->
      option_map fst (GetTransaction b txid w)
      = Some (None, Some (ErrJSON msg))).
Proof.
  intros Hrpc. cbv zeta. unfold returns_payload.
  split; [intros hash height Hne Hraw Hbad|].
  { rewrite (GetBlock_run b c hash height w Hrpc).
    destruct (String.eqb_spec hash "") as [He|_]; [contradiction|].
    rewrite Hraw. cbn [option_map fst].
    destruct Hbad as [Hh|[[head Hh] Hb]]; rewrite Hh; [reflexivity|].
    rewrite Hb. reflexivity. }
  split; [intros height Hraw Hbad|].
  { rewrite (GetBlock_run b c "" height w Hrpc). cbn [String.eqb].
    rewrite Hraw. cbn [option_map fst].
    destruct Hbad as [Hh|[[head Hh] Hb]]; rewrite Hh; [reflexivity|].
    rewrite Hb. reflexivity. }
  split; [intros hash Hraw Hbad|].
  { unfold GetBlockInfo, bind. rewrite Hrpc, CallContext_run, Hraw.
    unfold unmarshal_RawMessage.
    destruct Hbad as [Hh|[[head Hh] Hb]]; rewrite Hh; [reflexivity|].
    rewrite Hb. reflexivity. }
  split.
  - intros hash Hraw Hbad. unfold GetBlockHeader, bind.
    rewrite Hrpc, CallContext_run, Hraw, Hbad. reflexivity.
  - intros txid Hraw Hbad. unfold GetTransaction, bind.
    rewrite Hrpc, CallContext_run, Hraw, Hbad. reflexivity.
Qed.

(** X6.  The best block hash is the hash at the best height: when the
    height lookup succeeds with [h], the operation continues exactly as
    [GetBlockHash h] does in the world the height lookup left, so the
    second request asks for [h] and meets the node as the first request
    left it; when the height lookup fails, its error is returned with the
    empty string and no second request is made. *)
Theorem GetBestBlockHash_is_hash_at_best_height (b : NimiqRPC)
  (w w1 : World) (h : Z) (err : option error) :
  GetBestBlockHeight b w = Some ((h, err), w1) ->
  (err = None -> GetBestBlockHash b w = GetBlockHash b h w1) /\
  (forall e, err = Some e -> GetBestBlockHash b w = Some (("", Some e), w1)).
Proof.
  intros Hbest. split.
  - intros ->. unfold GetBestBlockHash. unfold bind at 1. rewrite Hbest.
    reflexivity.
  - intros e ->. unfold GetBestBlockHash. unfold bind at 1. rewrite Hbest.
    reflexivity.
Qed.

(** X7.  Initialization looks at one block only, the full block at height
    1 asked for by number.  When that request fails, or its payload does
    not decode, the error of the fetch is returned (for a malformed payload
    with the annotation "hash , height 1"), the connector is left as it
    was and nothing is logged.  Whatever happens, that one request is the
    only one: initialization ends either with an error, the connector
    unchanged and nothing logged, or without error after one log line. *)
Theorem Initialize_returns_fetch_error (b : NimiqRPC) (c : Client)
  (w : World) :
  NimiqRPC_rpc b = Some c ->
  let ctx := context_WithTimeout (NimiqRPC_timeout b) in
  let w1 :=
    after_call c ctx "getBlockByNumber" [AUint32 1; ABool true] w in
  (forall g e,
      GetBlock b "" 1 w = Some ((g, Some e), w1) ->
      Initialize b w = Some ((b, Some e), w1)) /\
  (forall msg,
      fst (rpc_roundtrip c ctx "getBlockByNumber" [AUint32 1; ABool true]
             (node w)) = inl msg ->
      Initialize b w = Some ((b, Some (ErrRPC msg)), w1)) /\
  (forall raw msg,
      returns_payload c ctx "getBlockByNumber" [AUint32 1; ABool true]
        w raw ->
      unmarshal_rpcHeader raw = inl msg ->
      Initialize b w
      = Some ((b, Some (ErrAnnotate (ErrJSON msg) "hash , height 1")),
              w1)) /\
  (forall r w',
      Initialize b w = Some (r, w') ->
      (w' = w1 /\ fst r = b /\ snd r <> None) \/
      (exists n, w' = record (EvLog ("rpc: block chain " ++ n)) w1 /\
                 snd r = None)).
Proof.
  intros Hrpc. cbv zeta.
  assert (Hfail : forall g e,
             GetBlock b "" 1 w
             = Some ((g, Some e),
                     after_call c (context_WithTimeout (NimiqRPC_timeout b))
                       "getBlockByNumber" [AUint32 1; ABool true] w) ->
             Initialize b w
             = Some ((b, Some e),
                     after_call c (context_WithTimeout (NimiqRPC_timeout b))
                       "getBlockByNumber" [AUint32 1; ABool true] w)).
  { intros g e Hget. unfold Initialize. unfold bind at 1. rewrite Hget.
    reflexivity. }
  split; [exact Hfail|].
  split.
  { intros msg Hf. apply (Hfail None).
    rewrite (GetBlock_run b c "" 1 w Hrpc). cbn [String.eqb].
    rewrite Hf. reflexivity. }
  split.
  { intros raw msg Hraw Hbad. apply (Hfail None).
    rewrite (GetBlock_run b c "" 1 w Hrpc). cbn [String.eqb].
    unfold returns_payload in Hraw. rewrite Hraw, Hbad. reflexivity. }
  intros r w'. unfold Initialize. unfold bind at 1.
  rewrite (GetBlock_run b c "" 1 w Hrpc). cbn [String.eqb].
  destruct (fst (rpc_roundtrip _ _ _ _ _)) as [msg|raw];
    [intros [= <- <-]; left; repeat split; discriminate|].
  destruct (unmarshal_rpcHeader raw) as [msg|head];
    [intros [= <- <-]; left; repeat split; discriminate|].
  destruct (unmarshal_rpcBlock raw) as [msg|body];
    [intros [= <- <-]; left; repeat split; discriminate|].
  cbv beta iota zeta. unfold assign_network, bind.
  repeat match goal with
         | |- context [if ?t then _ else _] => destruct t
         end;
    try (destruct (NimiqRPC_BaseChain b) as [bc|]; [|discriminate];
         cbn; intros [= <- <-]; right; eexists; split; reflexivity).
  cbn. intros [= <- <-]. left. repeat split. discriminate.
Qed.

Lemma to_int64_id (v : Z) : is_int64 v -> to_int64 v = v.
Proof.
  unfold is_int64, to_int64. intros Hv.
  rewrite Z.mod_small; lia.
Qed.

(** Splits on how construction went: the document did not decode, the dial
    failed, or both succeeded. *)
Ltac construction_cases config w c cl n :=
  unfold NewNimiqRPC;
  destruct (unmarshal_Configuration config) as [?msg|c];
  [ | unfold bind, Dial;
      destruct (Configuration_BlockAddressesToKeep c <? 100)%Z;
      cbn [set_BlockAddressesToKeep Configuration_RPCURL];
      destruct (rpc_Dial (Configuration_RPCURL c) (node w))
        as [[?msg|cl] n]; cbn ].

(** X8.  Construction never panics and never hands back a half-built
    connector: it returns either an error and no connector, or no error
    and a connector whose client, chain state and configuration are all
    set, with the chain state still at its zero value (no parser, no
    network label, testnet flag off). *)
Theorem NewNimiqRPC_builds_whole_connector_or_fails {H : Type}
  (config : list byte) (pushHandler : H) (w : World) :
  exists r w',
    NewNimiqRPC config pushHandler w = Some (r, w') /\
    ((exists e, r = (None, Some e)) \/
     (exists s,
         r = (Some s, None) /\
         constructed s /\
         NimiqRPC_BaseChain s = Some BaseChain_zero)).
Proof.
  construction_cases config w c cl n; do 2 eexists;
    (split; [reflexivity|]);
    try (left; eexists; reflexivity);
    right; eexists; (split; [reflexivity|]);
    (split; [|reflexivity]); repeat split; discriminate.
Qed.

(** X9.  How construction fails.  A configuration document that does not
    decode gives the decoder's error annotated with "Invalid configuration
    file", and the endpoint is not dialled: the world is untouched.
    Otherwise the configured URL is dialled exactly once; when the dial
    fails its error is returned as it is. *)
Theorem NewNimiqRPC_failure_modes {H : Type} (config : list byte)
  (pushHandler : H) (w : World) :
  (forall msg,
      unmarshal_Configuration config = inl msg ->
      NewNimiqRPC config pushHandler w
      = Some ((None,
               Some (ErrAnnotate (ErrJSON msg) "Invalid configuration file")),
              w)) /\
  (forall c,
      unmarshal_Configuration config = inr c ->
      exists r w',
        NewNimiqRPC config pushHandler w = Some (r, w') /\
        trace w' = (trace w ++ [EvDial (Configuration_RPCURL c)])%list /\
        node w' = snd (rpc_Dial (Configuration_RPCURL c) (node w)) /\
        forall msg,
          fst (rpc_Dial (Configuration_RPCURL c) (node w)) = inl msg ->
          r = (None, Some (ErrRPC msg))).
Proof.
  split.
  - intros msg Hcfg. unfold NewNimiqRPC. rewrite Hcfg. reflexivity.
  - intros c Hcfg. unfold NewNimiqRPC. rewrite Hcfg.
    unfold bind, Dial.
    destruct (Configuration_BlockAddressesToKeep c <? 100)%Z;
      cbn [set_BlockAddressesToKeep Configuration_RPCURL];
      destruct (rpc_Dial (Configuration_RPCURL c) (node w))
        as [[msg|cl] n]; cbn;
      do 2 eexists; (split; [reflexivity|]);
      (split; [reflexivity|]); (split; [reflexivity|]);
      intros m [= <-] || intros m [=]; reflexivity.
Qed.

(** X10.  The timeout of a constructed connector is the configured number
    of seconds as a [time.Duration], with the wrap-around of that
    multiplication: up to 9223372036 seconds it is exactly that many
    seconds counted in nanoseconds, while from 9223372037 seconds on the
    product no longer fits and the timeout comes out negative. *)
Theorem NewNimiqRPC_timeout_in_nanoseconds {H : Type} (config : list byte)
  (pushHandler : H) (c : Configuration) (s : NimiqRPC) (w w' : World) :
  unmarshal_Configuration config = inr c ->
  NewNimiqRPC config pushHandler w = Some ((Some s, None), w') ->
  let secs := Configuration_RPCTimeout c in
  is_int64 (NimiqRPC_timeout s) /\
  (- 9223372036 <= secs <= 9223372036 ->
   NimiqRPC_timeout s = secs * 1000000000) /\
  (9223372037 <= secs <= 18446744073 ->
   NimiqRPC_timeout s = secs * 1000000000 - 2 ^ 64 /\
   NimiqRPC_timeout s < 0).
Proof.
  intros Hcfg Hnew. cbv zeta.
  assert (Ht : NimiqRPC_timeout s = seconds (Configuration_RPCTimeout c)).
  { revert Hnew. unfold NewNimiqRPC. rewrite Hcfg. unfold bind, Dial.
    destruct (Configuration_BlockAddressesToKeep c <? 100)%Z;
      cbn [set_BlockAddressesToKeep Configuration_RPCURL
           Configuration_RPCTimeout];
      destruct (rpc_Dial (Configuration_RPCURL c) (node w))
        as [[msg|cl] n]; cbn;
      intros E;
      first [discriminate E | injection E as <- _; reflexivity]. }
  rewrite Ht. unfold seconds, time_Second.
  split; [apply to_int64_range|]. split.
  - intros Hs. rewrite (to_int64_id (Configuration_RPCTimeout c))
      by (unfold is_int64; lia).
    apply to_int64_id. unfold is_int64. lia.
  - intros Hs. rewrite (to_int64_id (Configuration_RPCTimeout c))
      by (unfold is_int64; lia).
    rewrite to_int64_large by lia. lia.
Qed.

(** X11.  Initialization changes nothing but the network.  Whatever it
    returns, the client handle, the timeout, the configuration and the
    parser of the connector are what they were; with an error the whole
    connector is unchanged; without one the flag and label are those of
    one of the three networks, and a connector that was fully constructed
    still is. *)
Theorem Initialize_changes_only_the_network (b b' : NimiqRPC)
  (err : option error) (w w' : World) :
  Initialize b w = Some ((b', err), w') ->
  NimiqRPC_rpc b' = NimiqRPC_rpc b /\
  NimiqRPC_timeout b' = NimiqRPC_timeout b /\
  NimiqRPC_ChainConfig b' = NimiqRPC_ChainConfig b /\
  option_map BaseChain_Parser (NimiqRPC_BaseChain b')
  = option_map BaseChain_Parser (NimiqRPC_BaseChain b) /\
  (err <> None -> b' = b) /\
  (err = None ->
   exists bc,
     NimiqRPC_BaseChain b' = Some bc /\
     In (BaseChain_Testnet bc, BaseChain_Network bc)
        [(false, "mainnet"); (true, "testnet"); (true, "devnet")]) /\
  (constructed b -> constructed b').
Proof.
  assert (Hsame : forall e : error,
             NimiqRPC_rpc b = NimiqRPC_rpc b /\
             NimiqRPC_timeout b = NimiqRPC_timeout b /\
             NimiqRPC_ChainConfig b = NimiqRPC_ChainConfig b /\
             option_map BaseChain_Parser (NimiqRPC_BaseChain b)
             = option_map BaseChain_Parser (NimiqRPC_BaseChain b) /\
             (Some e <> None -> b = b) /\
             (Some e = None ->
              exists bc,
                NimiqRPC_BaseChain b = Some bc /\
                In (BaseChain_Testnet bc, BaseChain_Network bc)
                   [(false, "mainnet"); (true, "testnet");
                    (true, "devnet")]) /\
             (constructed b -> constructed b)).
  { intros e. do 5 (split; [reflexivity|]). split; [discriminate|auto]. }
  unfold Initialize. unfold bind at 1.
  destruct (GetBlock b "" 1 w) as [[[g [e|]] w1]|]; [| |discriminate].
  { intros [= <- <- <-]. apply Hsame. }
  destruct g as [g|]; [|discriminate].
  cbv beta iota zeta. unfold assign_network, bind.
  repeat match goal with
         | |- context [if ?t then _ else _] => destruct t
         end;
    try (destruct (NimiqRPC_BaseChain b) as [bc|] eqn:Hbc; [|discriminate];
         cbn; intros [= <- <- <-];
         do 4 (split; [reflexivity|]);
         split; [intros Hn; now contradiction Hn|];
         split; [intros _; eexists; split; [reflexivity|]; cbn; auto|];
         intros (H1 & H2 & H3); repeat split; cbn; auto; discriminate).
  cbn. intros [= <- <- <-]. apply Hsame.
Qed.

(** X12.  No method of a fully constructed connector panics: the
    initialization, every lookup, the submission, the accessors of coin
    name and parser and the shutdown all return, in every world. *)
Theorem constructed_connector_never_panics (b : NimiqRPC) (w : World) :
  constructed b ->
  (exists r w', Initialize b w = Some (r, w')) /\
  (forall hash height, exists r w', GetBlock b hash height w = Some (r, w')) /\
  (exists r w', GetBestBlockHeight b w = Some (r, w')) /\
  (exists r w', GetBestBlockHash b w = Some (r, w')) /\
  (forall height, exists r w', GetBlockHash b height w = Some (r, w')) /\
  (forall hash, exists r w', GetBlockHeader b hash w = Some (r, w')) /\
  (forall hash, exists r w', GetBlockInfo b hash w = Some (r, w')) /\
  (forall txid, exists r w', GetTransaction b txid w = Some (r, w')) /\
  (exists r w', GetMempool b w = Some (r, w')) /\
  (forall hex, exists r w', SendRawTransaction b hex w = Some (r, w')) /\
  (exists r w', GetCoinName b w = Some (r, w')) /\
  (exists r w', GetChainParser b w = Some (r, w')) /\
  (forall ctx, exists r w', Shutdown b ctx w = Some (r, w')).
Proof.
  intros (Hrpc & Hbc & Hcfg).
  destruct (NimiqRPC_rpc b) as [c|] eqn:Ec; [clear Hrpc|contradiction].
  destruct (NimiqRPC_BaseChain b) as [bc|] eqn:Ebc; [clear Hbc|contradiction].
  destruct (NimiqRPC_ChainConfig b) as [cfg|] eqn:Ecfg;
    [clear Hcfg|contradiction].
  split.
  { unfold Initialize. unfold bind at 1.
    rewrite (GetBlock_run b c "" 1 w Ec). cbn [String.eqb].
    destruct (fst (rpc_roundtrip _ _ _ _ _)) as [msg|raw];
      [do 2 eexists; reflexivity|].
    destruct (unmarshal_rpcHeader raw) as [msg|head];
      [do 2 eexists; reflexivity|].
    destruct (unmarshal_rpcBlock raw) as [msg|body];
      [do 2 eexists; reflexivity|].
    cbv beta iota zeta. unfold assign_network, bind. rewrite Ebc.
    repeat match goal with
           | |- context [if ?t then _ else _] => destruct t
           end; do 2 eexists; reflexivity. }
  split.
  { intros hash height. rewrite (GetBlock_run b c hash height w Ec).
    do 2 eexists; reflexivity. }
  split; [unfold GetBestBlockHeight|].
  2: split.
  2: { unfold GetBestBlockHash, GetBestBlockHeight. unfold bind.
       rewrite Ec, CallContext_run.
       destruct (fst (rpc_roundtrip _ _ _ _ _)) as [msg|raw];
         [do 2 eexists; reflexivity|].
       destruct (unmarshal_uint32 raw) as [msg|h];
         [do 2 eexists; reflexivity|].
       cbv beta iota delta [ret]. rewrite CallContext_run.
       destruct (fst (rpc_roundtrip _ _ _ _ _)) as [msg|raw'];
         [do 2 eexists; reflexivity|].
       destruct (unmarshal_ptr_rpcHeader raw') as [msg|[v|]];
         do 2 eexists; reflexivity. }
  2: split; [intros height; unfold GetBlockHash|].
  3: split; [intros hash; unfold GetBlockHeader|].
  4: split; [intros hash; unfold GetBlockInfo|].
  5: split; [intros txid; unfold GetTransaction|].
  6: split; [unfold GetMempool|].
  7: split; [intros hex; unfold SendRawTransaction|].
  8: split; [unfold GetCoinName; rewrite Ecfg; do 2 eexists; reflexivity|].
  8: split; [unfold GetChainParser; rewrite Ebc; do 2 eexists; reflexivity|].
  8: { intros ctx. unfold Shutdown, bind. rewrite Ec.
       do 2 eexists; reflexivity. }
  all: run_call Ec; [do 2 eexists; reflexivity|];
    split_decoding;
    first [ do 2 eexists; reflexivity
          | match goal with
            | v : option _ |- _ => destruct v; do 2 eexists; reflexivity
            end ].
Qed.

(** What initialization can hand back: the connector as it was, or the
    connector with flag and label assigned. *)
Lemma Initialize_outcome (b b' : NimiqRPC) (err : option error)
  (w w' : World) :
  Initialize b w = Some ((b', err), w') ->
  b' = b \/
  exists bc t n, NimiqRPC_BaseChain b = Some bc /\ b' = set_network b bc t n.
Proof.
  unfold Initialize. unfold bind at 1.
  destruct (GetBlock b "" 1 w) as [[[g [e|]] w1]|]; [| |discriminate].
  { intros [= <- _ _]. now left. }
  destruct g as [g|]; [|discriminate].
  cbv beta iota zeta. unfold assign_network, bind.
  repeat match goal with
         | |- context [if ?t then _ else _] => destruct t
         end;
    try (destruct (NimiqRPC_BaseChain b) as [bc|] eqn:Hbc; [|discriminate];
         cbn; intros [= <- _ _]; right; do 3 eexists;
         split; reflexivity).
  cbn. intros [= <- _ _]. now left.
Qed.

(** X13.  Nothing installs a parser.  On the connector construction
    returns, the coin name is the configured one and the chain parser is
    nil, and both stay so after any initialization. *)
Theorem constructed_connector_has_no_parser {H : Type} (config : list byte)
  (pushHandler : H) (c : Configuration) (s : NimiqRPC) (w w' : World) :
  unmarshal_Configuration config = inr c ->
  NewNimiqRPC config pushHandler w = Some ((Some s, None), w') ->
  forall w2,
    GetCoinName s w2 = Some (Configuration_CoinName c, w2) /\
    GetChainParser s w2 = Some (None, w2) /\
    forall s' err w3 w4,
      Initialize s w3 = Some ((s', err), w4) ->
      GetCoinName s' w2 = Some (Configuration_CoinName c, w2) /\
      GetChainParser s' w2 = Some (None, w2).
Proof.
  intros Hcfg Hnew w2.
  assert (Hs : NimiqRPC_BaseChain s = Some BaseChain_zero /\
               exists c', NimiqRPC_ChainConfig s = Some c' /\
                          Configuration_CoinName c'
                          = Configuration_CoinName c).
  { revert Hnew. unfold NewNimiqRPC. rewrite Hcfg. unfold bind, Dial.
    destruct (Configuration_BlockAddressesToKeep c <? 100)%Z;
      cbn [set_BlockAddressesToKeep Configuration_RPCURL];
      destruct (rpc_Dial (Configuration_RPCURL c) (node w))
        as [[msg|cl] n]; cbn;
      intros E;
      first [ discriminate E
            | injection E as <- _; split;
              [reflexivity | eexists; split; reflexivity] ]. }
  destruct Hs as (Hbc & c' & Hc' & Hname).
  assert (Hhere : GetCoinName s w2 = Some (Configuration_CoinName c, w2) /\
                  GetChainParser s w2 = Some (None, w2)).
  { unfold GetCoinName, GetChainParser. rewrite Hc', Hbc, Hname.
    split; reflexivity. }
  split; [apply Hhere|]. split; [apply Hhere|].
  intros s' err w3 w4 Hinit.
  destruct (Initialize_outcome s s' err w3 w4 Hinit)
    as [->|(bc & t & n & Hbc' & ->)]; [exact Hhere|].
  rewrite Hbc in Hbc'. injection Hbc' as <-.
  unfold GetCoinName, GetChainParser. cbn. rewrite Hc', Hname.
  split; reflexivity.
Qed.

(** X14.  A full block that is returned is built from the payload the
    node gave to the one request of the fetch (by hash when a hash is
    given, by height otherwise): that payload decodes to a header and to a
    transaction list, the block carries the mapped header and the image of
    every wire transaction of that list in its order (as many canonical
    transactions as wire transactions, the same ids at the same positions,
    each with one input and one output), and the world is the one that
    request left. *)
Theorem GetBlock_maps_transactions_in_order (b : NimiqRPC) (hash : string)
  (height : Z) (w w' : World) (bk : Block) :
  GetBlock b hash height w = Some ((Some bk, None), w') ->
  let ctx := context_WithTimeout (NimiqRPC_timeout b) in
  let method :=
    if (hash =? "")%string then "getBlockByNumber" else "getBlockByHash" in
  let args :=
    if (hash =? "")%string then [AUint32 height; ABool true]
    else [AString hash; ABool true] in
  exists c raw head body,
    NimiqRPC_rpc b = Some c /\
    returns_payload c ctx method args w raw /\
    w' = after_call c ctx method args w /\
    unmarshal_rpcHeader raw = inr head /\
    unmarshal_rpcBlock raw = inr body /\
    Block_BlockHeader bk = nimHeaderToBlockHeader b head /\
    Block_Txs bk = map (nimTxToTx b) (rpcBlock_Txs body) /\
    List.length (Block_Txs bk) = List.length (rpcBlock_Txs body) /\
    map Tx_Txid (Block_Txs bk) = map rpcTx_Hash (rpcBlock_Txs body) /\
    (forall i tx,
        nth_error (rpcBlock_Txs body) i = Some tx ->
        nth_error (Block_Txs bk) i = Some (nimTxToTx b tx)) /\
    Forall (fun t => List.length (Tx_Vin t) = 1%nat /\
                     List.length (Tx_Vout t) = 1%nat) (Block_Txs bk).
Proof.
  intros Hget. cbv zeta.
  destruct (NimiqRPC_rpc b) as [c|] eqn:Hrpc.
  2: { unfold GetBlock, bind in Hget. rewrite Hrpc in Hget.
       destruct (negb (hash =? "")%string); discriminate Hget. }
  rewrite (GetBlock_run b c hash height w Hrpc) in Hget.
  destruct (fst (rpc_roundtrip _ _ _ _ _)) as [msg|raw] eqn:Hraw;
    [discriminate|].
  destruct (unmarshal_rpcHeader raw) as [msg|head] eqn:Hh; [discriminate|].
  destruct (unmarshal_rpcBlock raw) as [msg|body] eqn:Hb; [discriminate|].
  injection Hget as <- <-.
  exists c, raw, head, body. cbn [Block_BlockHeader Block_Txs].
  split; [reflexivity|]. split; [exact Hraw|]. split; [reflexivity|].
  split; [exact Hh|]. split; [exact Hb|].
  do 2 (split; [reflexivity|]).
  split; [apply length_map|].
  split; [rewrite map_map; reflexivity|].
  split.
  - intros i tx Hi. rewrite nth_error_map, Hi. reflexivity.
  - apply Forall_forall. intros t Ht.
    apply in_map_iff in Ht. destruct Ht as (tx & <- & _). now split.
Qed.

(** X15.  The full block and the summary agree on the transactions too:
    when the two payloads for a hash list the same transaction hashes in
    the same order (as objects in one, as strings in the other) and both
    fetches succeed, the ids of the block's transactions are the ids of
    the summary, in that order. *)
Theorem full_block_and_summary_list_same_txids (b : NimiqRPC) (c : Client)
  (hash : string) (height : Z) (w1 w2 w1' w2' : World)
  (rawFull rawLight : list byte) (body : rpcBlock) (light : rpcLightBlock)
  (bk : Block) (bi : BlockInfo) :
  NimiqRPC_rpc b = Some c ->
  hash <> "" ->
  returns_payload c (context_WithTimeout (NimiqRPC_timeout b))
    "getBlockByHash" [AString hash; ABool true] w1 rawFull ->
  returns_payload c (context_WithTimeout (NimiqRPC_timeout b))
    "getBlockByHash" [AString hash; ABool false] w2 rawLight ->
  unmarshal_rpcBlock rawFull = inr body ->
  unmarshal_rpcLightBlock rawLight = inr light ->
  map rpcTx_Hash (rpcBlock_Txs body) = rpcLightBlock_Txs light ->
  GetBlock b hash height w1 = Some ((Some bk, None), w1') ->
  GetBlockInfo b hash w2 = Some ((Some bi, None), w2') ->
  map Tx_Txid (Block_Txs bk) = BlockInfo_Txids bi /\
  List.length (Block_Txs bk) = List.length (BlockInfo_Txids bi).
Proof.
  intros Hrpc Hne HrawF HrawL Hbody Hlight Hsame Hfull Hsum.
  unfold returns_payload in HrawF, HrawL.
  rewrite (GetBlock_run b c hash height w1 Hrpc) in Hfull.
  destruct (String.eqb_spec hash "") as [He|_]; [contradiction|].
  rewrite HrawF, Hbody in Hfull.
  unfold GetBlockInfo, bind in Hsum.
  rewrite Hrpc, CallContext_run, HrawL in Hsum.
  unfold unmarshal_RawMessage in Hsum. rewrite Hlight in Hsum.
  destruct (unmarshal_rpcHeader rawFull); [discriminate|].
  destruct (unmarshal_rpcHeader rawLight); [discriminate|].
  injection Hfull as <- _. injection Hsum as <- _.
  cbn [Block_Txs BlockInfo_Txids].
  rewrite <- Hsame, map_map, !length_map. split; reflexivity.
Qed.

(** X16.  Only the shutdown checks the client handle.  On a connector
    whose handle is nil every lookup, the submission and the
    initialization panic at their first request. *)
Theorem nil_client_panics (b : NimiqRPC) (w : World) :
  NimiqRPC_rpc b = None ->
  Initialize b w = None /\
  (forall hash height, GetBlock b hash height w = None) /\
  GetBestBlockHeight b w = None /\
  GetBestBlockHash b w = None /\
  (forall height, GetBlockHash b height w = None) /\
  (forall hash, GetBlockHeader b hash w = None) /\
  (forall hash, GetBlockInfo b hash w = None) /\
  (forall txid, GetTransaction b txid w = None) /\
  GetMempool b w = None /\
  (forall hex, SendRawTransaction b hex w = None) /\
  (forall ctx, Shutdown b ctx w <> None).
Proof.
  intros Hrpc.
  assert (Hblock : forall hash height, GetBlock b hash height w = None).
  { intros hash height. unfold GetBlock, bind. rewrite Hrpc.
    destruct (negb (hash =? "")%string); reflexivity. }
  split.
  { unfold Initialize. unfold bind at 1. rewrite Hblock. reflexivity. }
  split; [exact Hblock|].
  repeat split; intros;
    try (unfold GetBestBlockHeight, GetBestBlockHash, GetBlockHash,
           GetBlockHeader, GetBlockInfo, GetTransaction, GetMempool,
           SendRawTransaction, GetBestBlockHeight, bind;
         rewrite Hrpc; reflexivity).
  unfold Shutdown, bind. rewrite Hrpc. discriminate.
Qed.

(** X17.  The shutdown does not clear the handle.  On a connector with an
    open client each shutdown closes that client and then writes its log
    line, so two shutdowns close the same client twice; the connector
    relies on the client to take a second [Close]. *)
Theorem Shutdown_closes_on_every_call (b : NimiqRPC) (c : Client)
  (ctx ctx' : context_Context) (w : World) :
  NimiqRPC_rpc b = Some c ->
  exists w1 w2,
    Shutdown b ctx w = Some (None, w1) /\
    Shutdown b ctx' w1 = Some (None, w2) /\
    trace w1 = (trace w ++ [EvClose c; EvLog "rpc: shutdown"])%list /\
    node w1 = rpc_Close c (node w) /\
    trace w2
    = (trace w ++ [EvClose c; EvLog "rpc: shutdown";
                   EvClose c; EvLog "rpc: shutdown"])%list /\
    node w2 = rpc_Close c (rpc_Close c (node w)).
Proof.
  intros Hrpc. unfold Shutdown, bind. rewrite Hrpc. cbn.
  do 2 eexists. do 2 (split; [reflexivity|]). cbn.
  rewrite <- !app_assoc. repeat split.
Qed.

(** X18.  What a successful lookup returns is what was decoded: the hash
    field of the wire header for the hash at a height, the mapped header
    for a header by hash (so both name the same hash when the node serves
    the same header), the mapped transaction for a transaction, and height,
    mempool ids and submitted hash as they were decoded. *)
Theorem lookups_return_the_decoded_result (b : NimiqRPC) (c : Client)
  (w : World) (raw : list byte) :
  NimiqRPC_rpc b = Some c ->
  let ctx := context_WithTimeout (NimiqRPC_timeout b) in
  (forall height head,
      returns_payload c ctx "getBlockByNumber" [AUint32 height] w raw ->
      unmarshal_ptr_rpcHeader raw = inr (Some head) ->
      option_map fst (GetBlockHash b height w)
      = Some (rpcHeader_Hash head, None)) /\
  (forall hash head,
      returns_payload c ctx "getBlockByHash" [AString hash] w raw ->
      unmarshal_ptr_rpcHeader raw = inr (Some head) ->
      option_map fst (GetBlockHeader b hash w)
      = Some (Some (nimHeaderToBlockHeader b head), None) /\
      BlockHeader_Hash (nimHeaderToBlockHeader b head)
      = rpcHeader_Hash head) /\
  (forall txid tx,
      returns_payload c ctx "getTransactionByHash" [AString txid] w raw ->
      unmarshal_ptr_rpcTx raw = inr (Some tx) ->
      option_map fst (GetTransaction b txid w)
      = Some (Some (nimTxToTx b tx), None)) /\
  (forall n,
      returns_payload c ctx "blockNumber" [] w raw ->
      unmarshal_uint32 raw = inr n ->
      option_map fst (GetBestBlockHeight b w) = Some (n, None)) /\
  (forall ids,
      returns_payload c ctx "mempoolContent" [ABool false] w raw ->
      unmarshal_strings raw = inr ids ->
      option_map fst (GetMempool b w) = Some (ids, None)) /\
  (forall hex txHash,
      returns_payload c ctx "sendRawTransaction" [AString hex] w raw ->
      unmarshal_string raw = inr txHash ->
      option_map fst (SendRawTransaction b hex w) = Some (txHash, None)).
Proof.
  intros Hrpc. cbv zeta. unfold returns_payload.
  split; [intros height head Hraw Hdec; unfold GetBlockHash|].
  2: split; [intros hash head Hraw Hdec; split; [unfold GetBlockHeader|]|].
  4: split; [intros txid tx Hraw Hdec; unfold GetTransaction|].
  5: split; [intros n Hraw Hdec; unfold GetBestBlockHeight|].
  6: split; [intros ids Hraw Hdec; unfold GetMempool
            | intros hex txHash Hraw Hdec; unfold SendRawTransaction].
  3: reflexivity.
  all: unfold bind; rewrite Hrpc, CallContext_run, Hraw, Hdec; reflexivity.
Qed.

End ConnectorFurther.

(** ** The further connector properties on the scripted platform *)

Lemma each_lookup_issues_one_request_witness :
  trace (after_call (P := Scripted.platform) (ClientHandle 1) 25000000000
           "mempoolContent" [ABool false] (Scripted.world [inr [x0a; x0b]]))
  = [EvCall (ClientHandle 1) 25000000000 "mempoolContent" [ABool false]] /\
  exists r,
    GetMempool (P := Scripted.platform) Scripted.adapter
      (Scripted.world [inr [x0a; x0b]])
    = Some (r, after_call (ClientHandle 1) 25000000000 "mempoolContent"
                 [ABool false] (Scripted.world [inr [x0a; x0b]])).
Proof.
  split; [reflexivity|].
  destruct (each_lookup_issues_one_request (P := Scripted.platform)
              Scripted.adapter (ClientHandle 1)
              (Scripted.world [inr [x0a; x0b]]) eq_refl)
    as (_ & _ & _ & _ & _ & Hmempool & _).
  exact Hmempool.
Defined.

Lemma request_failure_is_passed_through_witness :
  option_map fst
    (GetTransaction (P := Scripted.platform) Scripted.adapter "9f3c"
       (Scripted.world [inl "i/o timeout"]))
  = Some (None, Some (ErrRPC "i/o timeout")) /\
  option_map fst
    (GetBlock (P := Scripted.platform) Scripted.adapter "" 7
       (Scripted.world []))
  = Some (None, Some (ErrRPC "connection refused")).
Proof.
  split.
  - destruct (request_failure_is_passed_through (P := Scripted.platform)
                Scripted.adapter (ClientHandle 1)
                (Scripted.world [inl "i/o timeout"]) "i/o timeout" eq_refl)
      as (_ & _ & _ & _ & _ & _ & Htx & _).
    apply Htx. reflexivity.
  - destruct (request_failure_is_passed_through (P := Scripted.platform)
                Scripted.adapter (ClientHandle 1)
                (Scripted.world []) "connection refused" eq_refl)
      as (_ & _ & _ & _ & Hblock & _).
    apply Hblock. reflexivity.
Defined.

Lemma malformed_payload_is_annotated_witness :
  option_map fst
    (GetBlock (P := Scripted.platform) Scripted.adapter "ab" 5
       (Scripted.world [inr [x00]]))
  = Some (None,
          Some (ErrAnnotate (ErrJSON "invalid character")
                  "hash ab, height 5")) /\
  option_map fst
    (GetBlockInfo (P := Scripted.platform) Scripted.adapter "ab"
       (Scripted.world [inr [x01; x05]]))
  = Some (None,
          Some (ErrAnnotate (ErrJSON "cannot unmarshal object into string")
                  "hash ab")).
Proof.
  split.
  - destruct (malformed_payload_is_annotated (P := Scripted.platform)
                Scripted.adapter (ClientHandle 1)
                (Scripted.world [inr [x00]]) [x00] "invalid character"
                eq_refl)
      as (Hblock & _).
    apply (Hblock "ab" 5); [discriminate | reflexivity |].
    left. reflexivity.
  - destruct (malformed_payload_is_annotated (P := Scripted.platform)
                Scripted.adapter (ClientHandle 1)
                (Scripted.world [inr [x01; x05]]) [x01; x05]
                "cannot unmarshal object into string" eq_refl)
      as (_ & _ & Hsummary & _).
    apply (Hsummary "ab"); [reflexivity|].
    right. split; [eexists; reflexivity | reflexivity].
Defined.

Lemma GetBestBlockHash_is_hash_at_best_height_witness :
  option_map fst
    (GetBestBlockHash (P := Scripted.platform) Scripted.adapter
       (Scripted.world [inr [x0a; x0b]; inr [x0c]]))
  = Some ("0c", None) /\
  option_map (fun r => trace (snd r))
    (GetBestBlockHash (P := Scripted.platform) Scripted.adapter
       (Scripted.world [inr [x0a; x0b]; inr [x0c]]))
  = Some [EvCall (ClientHandle 1) 25000000000 "blockNumber" [];
          EvCall (ClientHandle 1) 25000000000 "getBlockByNumber"
            [AUint32 2]] /\
  option_map fst
    (GetBestBlockHash (P := Scripted.platform) Scripted.adapter
       (Scripted.world [inl "i/o timeout"; inr [x0c]]))
  = Some ("", Some (ErrRPC "i/o timeout")).
Proof.
  destruct (GetBestBlockHash_is_hash_at_best_height
              (P := Scripted.platform) Scripted.adapter
              (Scripted.world [inr [x0a; x0b]; inr [x0c]])
              (after_call (ClientHandle 1) 25000000000 "blockNumber" []
                 (Scripted.world [inr [x0a; x0b]; inr [x0c]]))
              2 None eq_refl) as [Hok _].
  destruct (GetBestBlockHash_is_hash_at_best_height
              (P := Scripted.platform) Scripted.adapter
              (Scripted.world [inl "i/o timeout"; inr [x0c]])
              (after_call (ClientHandle 1) 25000000000 "blockNumber" []
                 (Scripted.world [inl "i/o timeout"; inr [x0c]]))
              0 (Some (ErrRPC "i/o timeout")) eq_refl) as [_ Hfail].
  rewrite (Hok eq_refl), (Hfail _ eq_refl).
  repeat split.
Defined.

Lemma Initialize_returns_fetch_error_witness :
  option_map fst
    (Initialize (P := Scripted.platform) Scripted.adapter
       (Scripted.world []))
  = Some (Scripted.adapter, Some (ErrRPC "connection refused")) /\
  option_map fst
    (Initialize (P := Scripted.platform) Scripted.adapter
       (Scripted.world [inr [x00]]))
  = Some (Scripted.adapter,
          Some (ErrAnnotate (ErrJSON "invalid character")
                  "hash , height 1")).
Proof.
  split.
  - destruct (Initialize_returns_fetch_error (P := Scripted.platform)
                Scripted.adapter (ClientHandle 1) (Scripted.world [])
                eq_refl) as (_ & Hfail & _).
    rewrite (Hfail "connection refused" eq_refl). reflexivity.
  - destruct (Initialize_returns_fetch_error (P := Scripted.platform)
                Scripted.adapter (ClientHandle 1)
                (Scripted.world [inr [x00]]) eq_refl)
      as (_ & _ & Hbad & _).
    rewrite (Hbad [x00] "invalid character" eq_refl eq_refl). reflexivity.
Defined.

Lemma NewNimiqRPC_failure_modes_witness :
  NewNimiqRPC (P := Scripted.platform) [] tt (Scripted.world [inr []])
  = Some ((None,
           Some (ErrAnnotate (ErrJSON "unexpected end of JSON input")
                   "Invalid configuration file")),
          Scripted.world [inr []]) /\
  exists r w',
    NewNimiqRPC (P := Scripted.platform) [x0a] tt (Scripted.world [])
    = Some (r, w') /\
    trace w' = [EvDial "http://localhost:8648"] /\
    r = (None, Some (ErrRPC "dial: connection refused")).
Proof.
  destruct (NewNimiqRPC_failure_modes (P := Scripted.platform) [] tt
              (Scripted.world [inr []])) as [Hbad _].
  split; [apply Hbad; reflexivity|].
  destruct (NewNimiqRPC_failure_modes (P := Scripted.platform) [x0a] tt
              (Scripted.world [])) as [_ Hdial].
  destruct (Hdial _ eq_refl) as (r & w' & Hnew & Htrace & _ & Hfail).
  exists r, w'. split; [exact Hnew|]. split; [exact Htrace|].
  apply Hfail. reflexivity.
Defined.

Lemma NewNimiqRPC_timeout_in_nanoseconds_witness :
  NewNimiqRPC (P := Scripted.platform) [x0a] tt (Scripted.world [inr []])
  = Some ((Some Scripted.adapter, None),
          record (EvDial "http://localhost:8648")
            (Scripted.world [inr []])) /\
  NimiqRPC_timeout Scripted.adapter = 25 * 1000000000 /\
  exists s w',
    NewNimiqRPC (P := Scripted.platform) [x0a; x01] tt
      (Scripted.world [inr []])
    = Some ((Some s, None), w') /\
    NimiqRPC_timeout s = 9223372037 * 1000000000 - 2 ^ 64 /\
    NimiqRPC_timeout s < 0.
Proof.
  assert (Hnew :
            NewNimiqRPC (P := Scripted.platform) [x0a] tt
              (Scripted.world [inr []])
            = Some ((Some Scripted.adapter, None),
                    record (EvDial "http://localhost:8648")
                      (Scripted.world [inr []])))
    by (vm_compute; reflexivity).
  split; [exact Hnew|]. split.
  - destruct (NewNimiqRPC_timeout_in_nanoseconds (P := Scripted.platform)
                [x0a] tt _ _ _ _ eq_refl Hnew) as (_ & Hfits & _).
    apply Hfits. simpl; lia.
  - exists {| NimiqRPC_BaseChain := Some BaseChain_zero;
              NimiqRPC_rpc := Some (ClientHandle 1);
              NimiqRPC_timeout := - 9223372036709551616;
              NimiqRPC_ChainConfig :=
                Some {| Configuration_CoinName := "Nimiq";
                        Configuration_CoinShortcut := "NIM";
                        Configuration_RPCURL := "http://localhost:8648";
                        Configuration_RPCTimeout := 9223372037;
                        Configuration_BlockAddressesToKeep := 100 |} |}.
    exists (record (EvDial "http://localhost:8648")
              (Scripted.world [inr []])).
    assert (Hlong :
              NewNimiqRPC (P := Scripted.platform) [x0a; x01] tt
                (Scripted.world [inr []])
              = Some ((Some
                         {| NimiqRPC_BaseChain := Some BaseChain_zero;
                            NimiqRPC_rpc := Some (ClientHandle 1);
                            NimiqRPC_timeout := - 9223372036709551616;
                            NimiqRPC_ChainConfig :=
                              Some {| Configuration_CoinName := "Nimiq";
                                      Configuration_CoinShortcut := "NIM";
                                      Configuration_RPCURL :=
                                        "http://localhost:8648";
                                      Configuration_RPCTimeout := 9223372037;
                                      Configuration_BlockAddressesToKeep :=
                                        100 |} |}, None),
                      record (EvDial "http://localhost:8648")
                        (Scripted.world [inr []])))
      by (vm_compute; reflexivity).
    split; [exact Hlong|].
    destruct (NewNimiqRPC_timeout_in_nanoseconds (P := Scripted.platform)
                [x0a; x01] tt _ _ _ _ eq_refl Hlong) as (_ & _ & Hwraps).
    apply Hwraps. simpl; lia.
Defined.

Lemma Initialize_changes_only_the_network_witness :
  Initialize (P := Scripted.platform) Scripted.adapter
    (Scripted.world [inr Stub.dev_hash])
  = Some ((set_network Scripted.adapter BaseChain_zero true "devnet", None),
          record (EvLog "rpc: block chain devnet")
            (after_call (ClientHandle 1) 25000000000 "getBlockByNumber"
               [AUint32 1; ABool true]
               (Scripted.world [inr Stub.dev_hash]))) /\
  NimiqRPC_rpc (set_network Scripted.adapter BaseChain_zero true "devnet")
  = NimiqRPC_rpc Scripted.adapter /\
  NimiqRPC_ChainConfig
    (set_network Scripted.adapter BaseChain_zero true "devnet")
  = NimiqRPC_ChainConfig Scripted.adapter.
Proof.
  assert (Hinit :
            Initialize (P := Scripted.platform) Scripted.adapter
              (Scripted.world [inr Stub.dev_hash])
            = Some ((set_network Scripted.adapter BaseChain_zero true
                       "devnet", None),
                    record (EvLog "rpc: block chain devnet")
                      (after_call (ClientHandle 1) 25000000000
                         "getBlockByNumber" [AUint32 1; ABool true]
                         (Scripted.world [inr Stub.dev_hash]))))
    by (vm_compute; reflexivity).
  split; [exact Hinit|].
  destruct (Initialize_changes_only_the_network (P := Scripted.platform)
              _ _ _ _ _ Hinit) as (Hrpc & _ & Hcfg & _).
  split; [exact Hrpc | exact Hcfg].
Defined.

Lemma constructed_connector_never_panics_witness :
  constructed Scripted.adapter /\
  (exists r w',
      Initialize (P := Scripted.platform) Scripted.adapter
        (Scripted.world []) = Some (r, w')) /\
  (exists r w',
      GetBestBlockHash (P := Scripted.platform) Scripted.adapter
        (Scripted.world [inr [x0a]]) = Some (r, w')).
Proof.
  assert (Hc : constructed Scripted.adapter)
    by (repeat split; discriminate).
  split; [exact Hc|]. split.
  - destruct (constructed_connector_never_panics (P := Scripted.platform)
                Scripted.adapter (Scripted.world []) Hc) as (Hinit & _).
    exact Hinit.
  - destruct (constructed_connector_never_panics (P := Scripted.platform)
                Scripted.adapter (Scripted.world [inr [x0a]]) Hc)
      as (_ & _ & _ & Hbest & _).
    exact Hbest.
Defined.

Lemma constructed_connector_has_no_parser_witness :
  NewNimiqRPC (P := Scripted.platform) [x0a] tt (Scripted.world [inr []])
  = Some ((Some Scripted.adapter, None),
          record (EvDial "http://localhost:8648")
            (Scripted.world [inr []])) /\
  GetCoinName (P := Scripted.platform) Scripted.adapter (Scripted.world [])
  = Some ("Nimiq", Scripted.world []) /\
  GetChainParser (P := Scripted.platform) Scripted.adapter
    (Scripted.world [])
  = Some (None, Scripted.world []).
Proof.
  assert (Hnew :
            NewNimiqRPC (P := Scripted.platform) [x0a] tt
              (Scripted.world [inr []])
            = Some ((Some Scripted.adapter, None),
                    record (EvDial "http://localhost:8648")
                      (Scripted.world [inr []])))
    by (vm_compute; reflexivity).
  split; [exact Hnew|].
  destruct (constructed_connector_has_no_parser (P := Scripted.platform)
              [x0a] tt _ _ _ _ eq_refl Hnew (Scripted.world []))
    as (Hname & Hparser & _).
  split; [exact Hname | exact Hparser].
Defined.

Lemma GetBlock_maps_transactions_in_order_witness :
  exists bk w',
    GetBlock (P := Scripted.platform) Scripted.adapter "ab" 5
      (Scripted.world [inr [x0a; x0b; x0c]])
    = Some ((Some bk, None), w') /\
    map Tx_Txid (Block_Txs bk) = ["0a"; "0b"; "0c"] /\
    trace w'
    = [EvCall (ClientHandle 1) 25000000000 "getBlockByHash"
         [AString "ab"; ABool true]] /\
    Forall (fun t => List.length (Tx_Vin t) = 1%nat /\
                     List.length (Tx_Vout t) = 1%nat) (Block_Txs bk).
Proof.
  assert (Hget :
            GetBlock (P := Scripted.platform) Scripted.adapter "ab" 5
              (Scripted.world [inr [x0a; x0b; x0c]])
            = Some ((Some
                       {| Block_BlockHeader :=
                            nimHeaderToBlockHeader Scripted.adapter
                              (Stub.header_of [x0a; x0b; x0c]);
                          Block_Txs :=
                            map (nimTxToTx Scripted.adapter)
                              (map Scripted.tx_of_byte [x0a; x0b; x0c]) |},
                     None),
                    after_call (ClientHandle 1) 25000000000 "getBlockByHash"
                      [AString "ab"; ABool true]
                      (Scripted.world [inr [x0a; x0b; x0c]])))
    by (vm_compute; reflexivity).
  do 2 eexists. split; [exact Hget|].
  destruct (GetBlock_maps_transactions_in_order (P := Scripted.platform)
              _ _ _ _ _ _ Hget)
    as (c & raw & head & body & Hc & Hraw & _ & _ & Hbody & _ & _ & _
        & Hids & _ & Hall).
  split; [|split; [reflexivity | exact Hall]].
  unfold returns_payload in Hraw. vm_compute in Hraw.
  injection Hraw as <-.
  vm_compute in Hbody. injection Hbody as <-.
  rewrite Hids. reflexivity.
Defined.

Lemma full_block_and_summary_list_same_txids_witness :
  exists bk bi w1' w2',
    GetBlock (P := Scripted.platform) Scripted.adapter "ab" 5
      (Scripted.world [inr [x0a; x0b]])
    = Some ((Some bk, None), w1') /\
    GetBlockInfo (P := Scripted.platform) Scripted.adapter "ab"
      (Scripted.world [inr [x0a; x0b]])
    = Some ((Some bi, None), w2') /\
    BlockInfo_Txids bi = ["0a"; "0b"] /\
    map Tx_Txid (Block_Txs bk) = BlockInfo_Txids bi.
Proof.
  assert (Hfull :
            GetBlock (P := Scripted.platform) Scripted.adapter "ab" 5
              (Scripted.world [inr [x0a; x0b]])
            = Some ((Some
                       {| Block_BlockHeader :=
                            nimHeaderToBlockHeader Scripted.adapter
                              (Stub.header_of [x0a; x0b]);
                          Block_Txs :=
                            map (nimTxToTx Scripted.adapter)
                              (map Scripted.tx_of_byte [x0a; x0b]) |},
                     None),
                    after_call (ClientHandle 1) 25000000000 "getBlockByHash"
                      [AString "ab"; ABool true]
                      (Scripted.world [inr [x0a; x0b]])))
    by (vm_compute; reflexivity).
  assert (Hsum :
            GetBlockInfo (P := Scripted.platform) Scripted.adapter "ab"
              (Scripted.world [inr [x0a; x0b]])
            = Some ((Some
                       {| BlockInfo_BlockHeader :=
                            nimHeaderToBlockHeader Scripted.adapter
                              (Stub.header_of [x0a; x0b]);
                          BlockInfo_Difficulty := "";
                          BlockInfo_Nonce := "";
                          BlockInfo_Txids := ["0a"; "0b"] |},
                     None),
                    after_call (ClientHandle 1) 25000000000 "getBlockByHash"
                      [AString "ab"; ABool false]
                      (Scripted.world [inr [x0a; x0b]])))
    by (vm_compute; reflexivity).
  do 4 eexists.
  split; [exact Hfull|]. split; [exact Hsum|]. split; [reflexivity|].
  destruct (full_block_and_summary_list_same_txids
              (P := Scripted.platform) Scripted.adapter (ClientHandle 1)
              "ab" 5 (Scripted.world [inr [x0a; x0b]])
              (Scripted.world [inr [x0a; x0b]]) _ _
              [x0a; x0b] [x0a; x0b] _ _ _ _
              eq_refl ltac:(discriminate) eq_refl eq_refl eq_refl eq_refl
              eq_refl Hfull Hsum) as [Hids _].
  exact Hids.
Defined.

Lemma nil_client_panics_witness :
  NimiqRPC_rpc Stub.unopened = None /\
  GetBlock (P := Stub.platform) Stub.unopened "ab" 5 (Stub.world []) = None /\
  Initialize (P := Stub.platform) Stub.unopened (Stub.world []) = None.
Proof.
  split; [reflexivity|].
  destruct (nil_client_panics (P := Stub.platform) Stub.unopened
              (Stub.world []) eq_refl) as (Hinit & Hblock & _).
  split; [apply Hblock | exact Hinit].
Defined.

Lemma Shutdown_closes_on_every_call_witness :
  exists w1 w2,
    Shutdown (P := Scripted.platform) Scripted.adapter 0
      (Scripted.world [inr []]) = Some (None, w1) /\
    Shutdown (P := Scripted.platform) Scripted.adapter 0 w1
    = Some (None, w2) /\
    trace w2
    = [EvClose (ClientHandle 1); EvLog "rpc: shutdown";
       EvClose (ClientHandle 1); EvLog "rpc: shutdown"].
Proof.
  destruct (Shutdown_closes_on_every_call (P := Scripted.platform)
              Scripted.adapter (ClientHandle 1) 0 0
              (Scripted.world [inr []]) eq_refl)
    as (w1 & w2 & H1 & H2 & _ & _ & Htrace & _).
  exists w1, w2. split; [exact H1|]. split; [exact H2 | exact Htrace].
Defined.

Lemma lookups_return_the_decoded_result_witness :
  option_map fst
    (GetMempool (P := Scripted.platform) Scripted.adapter
       (Scripted.world [inr [x0a; x0b]]))
  = Some (["0a"; "0b"], None) /\
  option_map fst
    (GetBlockHash (P := Scripted.platform) Scripted.adapter 9
       (Scripted.world [inr [x0a; x0b]]))
  = Some ("0a0b", None).
Proof.
  destruct (lookups_return_the_decoded_result (P := Scripted.platform)
              Scripted.adapter (ClientHandle 1)
              (Scripted.world [inr [x0a; x0b]]) [x0a; x0b] eq_refl)
    as (Hhash & _ & _ & _ & Hmempool & _).
  split.
  - apply Hmempool; reflexivity.
  - apply (Hhash 9 (Stub.header_of [x0a; x0b])); reflexivity.
Defined.

